(** * UCW raw MCP server: message pipeline

    A shallow embedding of the protocol core of the [ucw] package
    ([ucw/server/protocol.py], [capture.py], [transport.py], [router.py],
    [server.py]) together with the properties its specification states
    about it.

    Conventions of the embedding.
    - A decoded frame is a [json] value; a Python [dict] coming from JSON is
      an association list in insertion order, with distinct keys; [None] is
      [JNull].
    - A Python call that may raise returns a [result]; code that mutates
      [self] is a function from the object's fields to an outcome and the
      fields afterwards (mutations made before a [raise] persist).
    - [await] is sequential composition: one frame is handled at a time and
      cancellation is not modelled, so an [exn] is always an instance of
      [Exception], the class the code's [except Exception] clauses catch.
    - A Python [str] is a [string]; where the code counts or cuts
      characters it is the list of its code points ([codepoints]).
    - Standard input is the list of the pieces the stream reader hands
      out or discards, one for each [readline] call, so that a line
      beyond the reader's limit is dropped as the code drops it.
    - Library calls with no definition in the repository ([json.loads],
      [json.dumps], [uuid.uuid4], [time.time_ns], the [repr] of containers,
      database start-up) are the fields of the [Runtime] class. *)

From stdpp Require Import base strings list gmap pretty.
From Stdlib Require Import ZArith.

Set Default Proof Using "Type".
Set Warnings "-register-all".

(** ** Python values *)

Abbreviation bytes := (list Byte.byte).

(** JSON values as [json.loads] builds them. Numbers with a fraction or an
    exponent (Python floats) are outside the model. *)
Inductive json :=
| JNull
| JBool (b : bool)
| JInt (z : Z)
| JStr (s : string)
| JArr (xs : list json)
| JObj (kvs : list (string * json)).

Inductive exn :=
| ProtocolError (code : Z) (message : string) (data : json)
| RuntimeError (msg : string)
| AttributeError (msg : string)
| TypeError (msg : string)
| KeyError (key : string)
| JSONDecodeError (msg : string)
| UnicodeDecodeError (msg : string)
| ValueError (msg : string)
| ProgrammingError (msg : string)
| OtherError (msg : string).

(** [str(exc)] *)
Definition exc_str (e : exn) : string :=
  match e with
  | ProtocolError _ m _ => m
  | RuntimeError m | AttributeError m | TypeError m | JSONDecodeError m
  | UnicodeDecodeError m | ValueError m | ProgrammingError m
  | OtherError m => m
  | KeyError k => "'" +:+ k +:+ "'"
  end.

Inductive result (A : Type) :=
| Ok (a : A)
| Raise (e : exn).
Arguments Ok {A} a.
Arguments Raise {A} e.

Definition is_Ok {A} (r : result A) : bool :=
  match r with Ok _ => true | Raise _ => false end.

Class Runtime := {
  (** [json.loads(raw_bytes)] *)
  json_loads : bytes → result json;
  (** [json.dumps(message, separators=(",", ":")) + "\n"], UTF-8 encoded *)
  json_dumps : json → bytes;
  (** [repr] of a list or a dict, which is what [str] gives for them *)
  py_repr : json → string;
  (** [uuid.uuid4().hex[:16]] for the k-th event an engine constructs *)
  uuid4_hex16 : nat → string;
  (** [time.time_ns()] as read while the k-th event is on its way *)
  time_ns : nat → Z;
  (** outcome of [CaptureDB.initialize()] *)
  db_initialize : result unit;
}.

Module Py.

(** [d.get(k)] on a dict; [None] when the key is absent. *)
Fixpoint assoc (k : string) (kvs : list (string * json)) : option json :=
  match kvs with
  | [] => None
  | (k', v) :: rest => if decide (k = k') then Some v else assoc k rest
  end.

(** [k in d] *)
Definition contains (k : string) (kvs : list (string * json)) : bool :=
  bool_decide (is_Some (assoc k kvs)).

(** [obj.get(k, default)]: only a dict has [get]. *)
Definition get (obj : json) (k : string) (dflt : json) : result json :=
  match obj with
  | JObj kvs => Ok (default dflt (assoc k kvs))
  | _ => Raise (AttributeError "object has no attribute 'get'")
  end.

(** [obj[k]] *)
Definition getitem (obj : json) (k : string) : result json :=
  match obj with
  | JObj kvs =>
      match assoc k kvs with
      | Some v => Ok v
      | None => Raise (KeyError k)
      end
  | _ => Raise (TypeError "indices must be integers or slices, not str")
  end.

(** Truth value of an object ([if not name:]). *)
Definition truthy (v : json) : bool :=
  match v with
  | JNull => false
  | JBool b => b
  | JInt z => negb (Z.eqb z 0)
  | JStr s => negb (bool_decide (s = ""))
  | JArr xs => negb (bool_decide (xs = []))
  | JObj kvs => negb (bool_decide (kvs = []))
  end.

(** [v == s] for a string literal [s] *)
Definition eq_str (v : json) (s : string) : bool :=
  match v with
  | JStr s' => bool_decide (s' = s)
  | _ => false
  end.

(** [v is not None] *)
Definition is_not_None (v : json) : bool :=
  match v with JNull => false | _ => true end.

(** [str(v)] *)
Definition str `{Runtime} (v : json) : string :=
  match v with
  | JNull => "None"
  | JBool true => "True"
  | JBool false => "False"
  | JInt z => pretty z
  | JStr s => s
  | JArr _ | JObj _ => py_repr v
  end.

(** [hash(v)] succeeds: lists and dicts are unhashable. *)
Definition hashable (v : json) : bool :=
  match v with JArr _ | JObj _ => false | _ => true end.

(** [a == b] on hashable JSON values ([True == 1] and [False == 0]). *)
Definition eq_scalar (a b : json) : bool :=
  match a, b with
  | JNull, JNull => true
  | JStr s, JStr t => bool_decide (s = t)
  | JInt x, JInt y => Z.eqb x y
  | JBool x, JBool y => bool_decide (x = y)
  | JBool x, JInt y | JInt y, JBool x => Z.eqb y (if x then 1 else 0)
  | _, _ => false
  end.

(** [x in s] for a set [s] of hashable values, given by its elements:
    the probe is hashed first. *)
Definition in_set (x : json) (s : list json) : result bool :=
  if hashable x then Ok (existsb (eq_scalar x) s)
  else Raise (TypeError "unhashable type").

(** [{f(t) for t in ts}]: the first failing element aborts. *)
Fixpoint set_of (f : json → result json) (ts : list json)
    : result (list json) :=
  match ts with
  | [] => Ok []
  | t :: rest =>
      match f t with
      | Raise e => Raise e
      | Ok v =>
          if hashable v then
            match set_of f rest with
            | Ok vs => Ok (v :: vs)
            | Raise e => Raise e
            end
          else Raise (TypeError "unhashable type")
      end
  end.

End Py.

(** ** [ucw/server/protocol.py] *)

Module Protocol.

Definition JSONRPC_VERSION : string := "2.0".

Definition PARSE_ERROR : Z := -32700.
Definition INVALID_REQUEST : Z := -32600.
Definition METHOD_NOT_FOUND : Z := -32601.
Definition INVALID_PARAMS : Z := -32602.
Definition INTERNAL_ERROR : Z := -32603.

Definition validate_message (msg : json) : result string :=
  match msg with
  | JObj kvs =>
      if negb (match Py.assoc "jsonrpc" kvs with
               | Some v => Py.eq_str v JSONRPC_VERSION
               | None => false
               end)
      then Raise (ProtocolError INVALID_REQUEST "Expected jsonrpc=2.0" JNull)
      else
        let has_id := Py.contains "id" kvs in
        let has_method := Py.contains "method" kvs in
        let has_result := Py.contains "result" kvs in
        let has_error := Py.contains "error" kvs in
        if has_method then Ok (if has_id then "request" else "notification")
        else if has_result && has_id then Ok "response"
        else if has_error && has_id then Ok "error"
        else Raise (ProtocolError INVALID_REQUEST
                      "Cannot determine message type" JNull)
  | _ => Raise (ProtocolError INVALID_REQUEST
                  "Message must be a JSON object" JNull)
  end.

Definition make_response (request_id result : json) : json :=
  JObj [("jsonrpc", JStr JSONRPC_VERSION);
        ("id", request_id);
        ("result", result)].

(** [data] defaults to [None]. *)
Definition make_error (request_id : json) (code : Z) (message : string)
    (data : json) : json :=
  let error := [("code", JInt code); ("message", JStr message)] in
  let error :=
    if Py.is_not_None data then error ++ [("data", data)] else error in
  JObj [("jsonrpc", JStr JSONRPC_VERSION);
        ("id", request_id);
        ("error", JObj error)].

Definition make_notification (method : string) (params : json) : json :=
  let msg := [("jsonrpc", JStr JSONRPC_VERSION); ("method", JStr method)] in
  JObj (if Py.is_not_None params then msg ++ [("params", params)] else msg).

Definition initialize_result (server_name server_version
    protocol_version : string) (capabilities : json) : json :=
  JObj [("protocolVersion", JStr protocol_version);
        ("capabilities",
          if Py.truthy capabilities then capabilities
          else JObj [("tools", JObj [("listChanged", JBool false)]);
                     ("resources", JObj [("subscribe", JBool false);
                                         ("listChanged", JBool false)])]);
        ("serverInfo", JObj [("name", JStr server_name);
                             ("version", JStr server_version)])].

Definition tools_list_result (tools : list json) : json :=
  JObj [("tools", JArr tools)].

Definition tool_result_content (content : list json) (is_error : bool)
    : json :=
  let result := [("content", JArr content)] in
  JObj (if is_error then result ++ [("isError", JBool true)] else result).

Definition text_content (text : string) : json :=
  JObj [("type", JStr "text"); ("text", JStr text)].

Definition resources_list_result (resources : list json) : json :=
  JObj [("resources", JArr resources)].

Definition resource_read_result (contents : list json) : json :=
  JObj [("contents", JArr contents)].

End Protocol.

(** ** [ucw/server/capture.py] *)

Module Capture.

(** The enrichment payloads of an event (populated by the bridge). *)
Record Layers := {
  data_layer : option json;
  light_layer : option json;
  instinct_layer : option json;
  coherence_signature : option string;
}.

Definition no_layers : Layers :=
  {| data_layer := None; light_layer := None; instinct_layer := None;
     coherence_signature := None |}.

Record CaptureEvent := {
  event_id : string;
  timestamp_ns : Z;
  direction : string;
  stage : string;
  raw_bytes : bytes;
  parsed : json;
  method : json;
  request_id : json;
  parent_protocol_id : option string;
  turn : nat;
  error : option string;
  layers : Layers;
  content_length : nat;
}.

Definition set_turn (n : nat) (e : CaptureEvent) : CaptureEvent :=
  {| event_id := event_id e; timestamp_ns := timestamp_ns e;
     direction := direction e; stage := stage e; raw_bytes := raw_bytes e;
     parsed := parsed e; method := method e; request_id := request_id e;
     parent_protocol_id := parent_protocol_id e; turn := n;
     error := error e; layers := layers e;
     content_length := content_length e |}.

Definition set_parent_protocol_id (p : option string) (e : CaptureEvent)
    : CaptureEvent :=
  {| event_id := event_id e; timestamp_ns := timestamp_ns e;
     direction := direction e; stage := stage e; raw_bytes := raw_bytes e;
     parsed := parsed e; method := method e; request_id := request_id e;
     parent_protocol_id := p; turn := turn e;
     error := error e; layers := layers e;
     content_length := content_length e |}.

Definition set_layers (l : Layers) (e : CaptureEvent) : CaptureEvent :=
  {| event_id := event_id e; timestamp_ns := timestamp_ns e;
     direction := direction e; stage := stage e; raw_bytes := raw_bytes e;
     parsed := parsed e; method := method e; request_id := request_id e;
     parent_protocol_id := parent_protocol_id e; turn := turn e;
     error := error e; layers := l;
     content_length := content_length e |}.

(** [CaptureEvent.__init__]. [fresh] is the identifier [uuid4] draws;
    [now] is what [time.time_ns()] returns, used only when the given
    timestamp is falsy. [parsed.get] raises on anything but a dict. *)
Definition CaptureEvent_init (fresh : string) (now : Z)
    (direction stage : string) (raw_bytes : bytes) (parsed : json)
    (timestamp_ns : Z) (parent_protocol_id error : option string)
    : result CaptureEvent :=
  match Py.get parsed "method" (JStr ""), Py.get parsed "id" JNull with
  | Ok method, Ok request_id =>
      Ok {| event_id := fresh;
            timestamp_ns := if Z.eqb timestamp_ns 0 then now
                            else timestamp_ns;
            direction := direction; stage := stage;
            raw_bytes := raw_bytes; parsed := parsed;
            method := method; request_id := request_id;
            parent_protocol_id := parent_protocol_id;
            turn := 0; error := error; layers := no_layers;
            content_length := length raw_bytes |}
  | Raise e, _ | _, Raise e => Raise e
  end.

(** The enrichment hook [enrich(event)]: it may fill the event's layer
    fields in place and it may raise; the pair is the layer fields as it
    leaves them and how the call ended. *)
Definition Bridge := CaptureEvent → Layers * result unit.

(** The persistence sink's [store_event(event)]. *)
Definition Sink := CaptureEvent → result unit.

(** An observer callback [cb(event)]. *)
Definition Callback := CaptureEvent → result unit.

Record CaptureEngine := {
  _events : list CaptureEvent;
  _turn_counter : nat;
  _request_map : gmap string CaptureEvent;
  _ucw_bridge : option Bridge;
  _db_sink : option Sink;
  _event_callbacks : list Callback;
  _stats : gmap string nat;
  (** lines written by [log.error] (the logger is a file outside the
      object; kept here to observe what the engine swallows) *)
  error_log : list string;
}.

(** [CaptureEngine.__init__] *)
Definition new : CaptureEngine :=
  {| _events := []; _turn_counter := 0; _request_map := ∅;
     _ucw_bridge := None; _db_sink := None; _event_callbacks := [];
     _stats := ∅; error_log := [] |}.

Definition set_ucw_bridge (bridge : Bridge) (self : CaptureEngine)
    : CaptureEngine :=
  {| _events := _events self; _turn_counter := _turn_counter self;
     _request_map := _request_map self; _ucw_bridge := Some bridge;
     _db_sink := _db_sink self; _event_callbacks := _event_callbacks self;
     _stats := _stats self; error_log := error_log self |}.

Definition set_db_sink (db : Sink) (self : CaptureEngine) : CaptureEngine :=
  {| _events := _events self; _turn_counter := _turn_counter self;
     _request_map := _request_map self; _ucw_bridge := _ucw_bridge self;
     _db_sink := Some db; _event_callbacks := _event_callbacks self;
     _stats := _stats self; error_log := error_log self |}.

Definition on_event (callback : Callback) (self : CaptureEngine)
    : CaptureEngine :=
  {| _events := _events self; _turn_counter := _turn_counter self;
     _request_map := _request_map self; _ucw_bridge := _ucw_bridge self;
     _db_sink := _db_sink self;
     _event_callbacks := _event_callbacks self ++ [callback];
     _stats := _stats self; error_log := error_log self |}.

(** [stats[key] += 1] on a [defaultdict(int)] *)
Definition bump (key : string) (stats : gmap string nat) : gmap string nat :=
  <[key := S (default 0 (stats !! key))]> stats.

(** [try: call except Exception as exc: log.error(prefix + str(exc))] *)
Definition swallow (prefix : string) (r : result unit) (log : list string)
    : list string :=
  match r with
  | Ok _ => log
  | Raise exc => log ++ [prefix +:+ exc_str exc]
  end.

(** The lineage step of [capture] on a freshly built event: the event
    with its turn and back-reference decided, the new turn counter, and
    the key under which the event enters the request map, if it does. *)
Definition lineage `{Runtime} (self : CaptureEngine) (event : CaptureEvent)
    : CaptureEvent * nat * option string :=
  let '(event, counter, key) :=
    if bool_decide (direction event = "in")
       && Py.is_not_None (request_id event)
    then (set_turn (S (_turn_counter self)) event,
          S (_turn_counter self),
          Some (Py.str (request_id event)))
    else (event, _turn_counter self, None) in
  let event :=
    if bool_decide (direction event = "out")
       && Py.is_not_None (request_id event)
    then match _request_map self !! Py.str (request_id event) with
         | Some parent =>
             set_turn (turn parent)
               (set_parent_protocol_id (Some (event_id parent)) event)
         | None => event
         end
    else event in
  (event, counter, key).

(** [CaptureEngine.capture]. The event object is shared by [_events] and
    [_request_map], so the map entry is the event as enrichment leaves
    it. *)
Definition capture `{Runtime} (raw_bytes : bytes) (parsed : json)
    (timestamp_ns : Z) (direction : string)
    (parent_protocol_id error : option string)
    (self : CaptureEngine) : result unit * CaptureEngine :=
  let stage := if bool_decide (direction = "in") then "received"
               else "sent" in
  match CaptureEvent_init (uuid4_hex16 (length (_events self)))
          (time_ns (length (_events self)))
          direction stage raw_bytes parsed timestamp_ns
          parent_protocol_id error with
  | Raise exc => (Raise exc, self)
  | Ok event =>
      let '(event, counter, key) := lineage self event in
      let '(event, log) :=
        match _ucw_bridge self with
        | Some bridge =>
            let '(l, r) := bridge event in
            (set_layers l event, swallow "UCW bridge error: " r
                                   (error_log self))
        | None => (event, error_log self)
        end in
      let request_map :=
        match key with
        | Some k => <[k := event]> (_request_map self)
        | None => _request_map self
        end in
      let events := _events self ++ [event] in
      let stats := bump "total" (bump (direction +:+ "_" +:+ stage)
                                   (_stats self)) in
      let log :=
        match _db_sink self with
        | Some sink => swallow "DB sink error: " (sink event) log
        | None => log
        end in
      let log :=
        foldl (λ log cb, swallow "Callback error: " (cb event) log)
          log (_event_callbacks self) in
      (Ok (),
       {| _events := events; _turn_counter := counter;
          _request_map := request_map; _ucw_bridge := _ucw_bridge self;
          _db_sink := _db_sink self;
          _event_callbacks := _event_callbacks self;
          _stats := stats; error_log := log |})
  end.

Definition stats (self : CaptureEngine) : gmap string nat := _stats self.
Definition turn_count (self : CaptureEngine) : nat := _turn_counter self.
Definition event_count (self : CaptureEngine) : nat :=
  length (_events self).

End Capture.

(** ** [ucw/server/transport.py] *)

Module Transport.

(** The keyword arguments of one [on_capture] call. *)
Record capture_call := {
  cc_raw_bytes : bytes;
  cc_parsed : json;
  cc_timestamp_ns : Z;
  cc_direction : string;
  cc_parent_protocol_id : option string;
  cc_error : option string;
}.

(** The capture hook, over whatever state [E] its owner keeps. *)
Definition Hook (E : Type) := capture_call → E → result unit * E.

Record RawStdioTransport := {
  running : bool;
  (** the stream reader: the input still to be read before end of file,
      one element for each [readline] call; [None] until [start] *)
  _reader : option (list bytes);
  (** standard output: the chunks written and flushed so far; [None]
      until [start] *)
  _stdout : option (list bytes);
}.

(** [RawStdioTransport.__init__] *)
Definition new : RawStdioTransport :=
  {| running := false; _reader := None; _stdout := None |}.

(** [start], with [stdin] the input as the reader will consume it, one
    element for each [readline] call: a line with its newline, a last
    line without one, or, for a line beyond the reader's limit, the block
    [readline] discards when it notices the overrun (the whole line when
    its newline has arrived by then, otherwise what has arrived of it,
    with the remainder of the line as the next element). *)
Definition start (stdin : list bytes) (self : RawStdioTransport)
    : RawStdioTransport :=
  {| running := true; _reader := Some stdin;
     _stdout := Some (default [] (_stdout self)) |}.

(** [asyncio.StreamReader(limit=2**16)] *)
Definition _limit : Z := 65536.

(** What the limit is compared against: the line without its newline. *)
Definition body_length (line : bytes) : nat :=
  match last line with
  | Some Byte.x0a => length line - 1
  | _ => length line
  end.

(** The line is beyond the limit of the reader. *)
Definition overruns (line : bytes) : bool :=
  (_limit <? Z.of_nat (body_length line))%Z.

(** The text of the [LimitOverrunError] that [readline] turns into a
    [ValueError]. *)
Definition overrun_message (line : bytes) : string :=
  match last line with
  | Some Byte.x0a => "Separator is found, but chunk is longer than limit"
  | _ => "Separator is not found, and chunk exceed the limit"
  end.

(** [StreamReader.readline]: the next line, or [b""] at end of file. On
    a line beyond the limit it drops the block from its buffer and raises
    [ValueError]. *)
Definition readline (pending : list bytes) : result bytes * list bytes :=
  match pending with
  | [] => (Ok [], [])
  | line :: rest =>
      if overruns line then (Raise (ValueError (overrun_message line)), rest)
      else (Ok line, rest)
  end.

(** [read_message]; [ts] is the reading of [time.time_ns()]. The result
    [Ok None] is Python's [return None]. *)
Definition read_message `{Runtime} {E} (on_capture : Hook E) (ts : Z)
    (self : RawStdioTransport) (e : E)
    : result (option (bytes * json)) * RawStdioTransport * E :=
  match _reader self with
  | None => (Raise (RuntimeError "Transport not started"), self, e)
  | Some pending =>
      let '(line, rest) := readline pending in
      let self := {| running := running self; _reader := Some rest;
                     _stdout := _stdout self |} in
      match line with
      | Raise _ =>
          (* [ValueError] from [readline], outside the inner [try]:
             [except Exception], logged, [return None] *)
          (Ok None, self, e)
      | Ok raw_bytes =>
      if bool_decide (raw_bytes = []) then (Ok None, self, e)
      else
        match json_loads raw_bytes with
        | Raise (JSONDecodeError _ as exc) =>
            let '(_, e) :=
              on_capture
                {| cc_raw_bytes := raw_bytes; cc_parsed := JObj [];
                   cc_timestamp_ns := ts; cc_direction := "in";
                   cc_parent_protocol_id := None;
                   cc_error := Some ("JSON parse error: "
                                     +:+ exc_str exc) |} e in
            (* [return None], also when the hook raised (outer handler) *)
            (Ok None, self, e)
        | Raise _ =>
            (* [except Exception]: logged, [return None] *)
            (Ok None, self, e)
        | Ok parsed =>
            let '(r, e) :=
              on_capture
                {| cc_raw_bytes := raw_bytes; cc_parsed := parsed;
                   cc_timestamp_ns := ts; cc_direction := "in";
                   cc_parent_protocol_id := None;
                   cc_error := None |} e in
            match r with
            | Ok _ => (Ok (Some (raw_bytes, parsed)), self, e)
            | Raise _ => (Ok None, self, e)
            end
        end
      end
  end.

(** [write_message(message, request_id=...)] *)
Definition write_message `{Runtime} {E} (on_capture : Hook E) (ts : Z)
    (message request_id : json) (self : RawStdioTransport) (e : E)
    : result unit * RawStdioTransport * E :=
  match _stdout self with
  | None => (Raise (RuntimeError "Transport not started"), self, e)
  | Some written =>
      let raw_bytes := json_dumps message in
      let '(r, e) :=
        on_capture
          {| cc_raw_bytes := raw_bytes; cc_parsed := message;
             cc_timestamp_ns := ts; cc_direction := "out";
             cc_parent_protocol_id :=
               if Py.is_not_None request_id
               then Some (Py.str request_id) else None;
             cc_error := None |} e in
      match r with
      | Raise exc => (Raise exc, self, e)
      | Ok _ =>
          (Ok (),
           {| running := running self; _reader := _reader self;
              _stdout := Some (written ++ [raw_bytes]) |},
           e)
      end
  end.

Definition close (self : RawStdioTransport) : RawStdioTransport :=
  {| running := false; _reader := _reader self;
     _stdout := _stdout self |}.

End Transport.

(** ** Methods of an object: state and exceptions

    [M S A] is a method of an object with fields [S] returning an [A]:
    it yields the fields afterwards together with the value or the
    exception raised. *)

Definition M (S A : Type) : Type := S → result A * S.

Definition raise {S A} (e : exn) : M S A := λ s, (Raise e, s).

#[global] Instance M_ret {S} : MRet (M S) := λ A a s, (Ok a, s).

#[global] Instance M_bind {S} : MBind (M S) :=
  λ A B k m s, match m s with
               | (Ok a, s') => k a s'
               | (Raise e, s') => (Raise e, s')
               end.

(** [try: m except Exception as exc: h exc] *)
Definition try_except {S A} (m : M S A) (h : exn → M S A) : M S A :=
  λ s, match m s with
       | (Ok a, s') => (Ok a, s')
       | (Raise e, s') => h e s'
       end.

(** [pass], or a [return] with no value *)
Definition pass {S} : M S unit := λ s, (Ok (), s).

Definition lift {S A} (r : result A) : M S A := λ s, (r, s).
Definition gets {S A} (f : S → A) : M S A := λ s, (Ok (f s), s).
Definition modify {S} (f : S → S) : M S unit := λ s, (Ok (), f s).

(** ** [ucw/server/router.py] *)

Module Config.
Definition SERVER_NAME : string := "ucw".
Definition SERVER_VERSION : string := "0.1.0".
Definition PROTOCOL_VERSION : string := "2024-11-05".
End Config.

Module Router.
Import Protocol.

(** A tool handler [handler(name, args)]. *)
Definition Handler := json → json → result json.

(** A resource provider [handler(uri)]; [JNull] when it has no content. *)
Definition ResourceHandler := json → result json.

Record Router := {
  _tools : list json;
  _tool_handlers : list (list json * Handler);
  _resources : list json;
  _resource_handlers : list ResourceHandler;
  _initialized : bool;
}.

(** [Router.__init__] *)
Definition new : Router :=
  {| _tools := []; _tool_handlers := []; _resources := [];
     _resource_handlers := []; _initialized := false |}.

Definition register_tools_module (tools_list : list json)
    (handler : Handler) : M Router unit :=
  modify (λ self,
    {| _tools := _tools self ++ tools_list;
       _tool_handlers := _tool_handlers self;
       _resources := _resources self;
       _resource_handlers := _resource_handlers self;
       _initialized := _initialized self |}) ;;
  names ← lift (Py.set_of (λ t, Py.getitem t "name") tools_list);
  modify (λ self,
    {| _tools := _tools self;
       _tool_handlers := _tool_handlers self ++ [(names, handler)];
       _resources := _resources self;
       _resource_handlers := _resource_handlers self;
       _initialized := _initialized self |}).

Definition register_resources (resources : list json)
    (handler : ResourceHandler) : M Router unit :=
  modify (λ self,
    {| _tools := _tools self;
       _tool_handlers := _tool_handlers self;
       _resources := _resources self ++ resources;
       _resource_handlers := _resource_handlers self ++ [handler];
       _initialized := _initialized self |}).

Definition _handle_initialize (params : json) : result json :=
  (* the log line reads the peer's name and protocol version *)
  match Py.get params "clientInfo" (JObj []) with
  | Raise e => Raise e
  | Ok client_info =>
      match Py.get client_info "name" (JStr "?"),
            Py.get params "protocolVersion" (JStr "?") with
      | Ok _, Ok _ =>
          Ok (initialize_result Config.SERVER_NAME Config.SERVER_VERSION
                Config.PROTOCOL_VERSION JNull)
      | Raise e, _ | _, Raise e => Raise e
      end
  end.

Definition _handle_tools_list (self : Router) : json :=
  tools_list_result (_tools self).

(** The [for tool_names, handler in self._tool_handlers] loop of
    [_handle_tools_call] and the [raise] that follows it. *)
Fixpoint tools_call_loop `{Runtime} (name args : json)
    (handlers : list (list json * Handler)) : result json :=
  match handlers with
  | [] =>
      Raise (ProtocolError METHOD_NOT_FOUND
               ("Unknown tool: " +:+ Py.str name) JNull)
  | (tool_names, handler) :: rest =>
      match Py.in_set name tool_names with
      | Raise e => Raise e
      | Ok true =>
          match handler name args with
          | Ok result => Ok result
          | Raise exc =>
              Ok (tool_result_content
                    [text_content ("Tool error: " +:+ exc_str exc)] true)
          end
      | Ok false => tools_call_loop name args rest
      end
  end.

Definition _handle_tools_call `{Runtime} (params : json) (self : Router)
    : result json :=
  match Py.get params "name" (JStr ""),
        Py.get params "arguments" (JObj []) with
  | Ok name, Ok args =>
      if negb (Py.truthy name)
      then Raise (ProtocolError INVALID_PARAMS "Missing tool name" JNull)
      else tools_call_loop name args (_tool_handlers self)
  | Raise e, _ | _, Raise e => Raise e
  end.

Definition _handle_resources_list (self : Router) : json :=
  resources_list_result (_resources self).

Fixpoint resources_read_loop `{Runtime} (uri : json)
    (handlers : list ResourceHandler) : result json :=
  match handlers with
  | [] =>
      Raise (ProtocolError INVALID_PARAMS
               ("Resource not found: " +:+ Py.str uri) JNull)
  | handler :: rest =>
      match handler uri with
      | Raise exc =>
          Raise (ProtocolError INTERNAL_ERROR
                   ("Resource error: " +:+ exc_str exc) JNull)
      | Ok content =>
          if Py.is_not_None content
          then Ok (resource_read_result
                     [JObj [("uri", uri);
                            ("mimeType", JStr "text/plain");
                            ("text", content)]])
          else resources_read_loop uri rest
      end
  end.

Definition _handle_resources_read `{Runtime} (params : json)
    (self : Router) : result json :=
  match Py.get params "uri" (JStr "") with
  | Raise e => Raise e
  | Ok uri =>
      if negb (Py.truthy uri)
      then Raise (ProtocolError INVALID_PARAMS "Missing resource URI" JNull)
      else resources_read_loop uri (_resource_handlers self)
  end.

(** [route]; the result [JNull] is Python's [None] (no response). *)
Definition route `{Runtime} (msg_type : string) (msg : json)
    : M Router json :=
  method ← lift (Py.get msg "method" (JStr ""));
  params ← lift (Py.get msg "params" (JObj []));
  if Py.eq_str method "initialize" then lift (_handle_initialize params)
  else if Py.eq_str method "initialized"
          || Py.eq_str method "notifications/initialized"
  then
    modify (λ self,
      {| _tools := _tools self; _tool_handlers := _tool_handlers self;
         _resources := _resources self;
         _resource_handlers := _resource_handlers self;
         _initialized := true |}) ;;
    mret JNull
  else if Py.eq_str method "notifications/cancelled" then mret JNull
  else if Py.eq_str method "ping" then mret (JObj [])
  else if Py.eq_str method "tools/list" then gets _handle_tools_list
  else if Py.eq_str method "tools/call"
  then λ self, (_handle_tools_call params self, self)
  else if Py.eq_str method "resources/list"
  then gets _handle_resources_list
  else if Py.eq_str method "resources/read"
  then λ self, (_handle_resources_read params self, self)
  else raise (ProtocolError METHOD_NOT_FOUND
                ("Unknown method: " +:+ Py.str method) JNull).

Definition tool_count (self : Router) : nat := length (_tools self).
Definition resource_count (self : Router) : nat :=
  length (_resources self).

End Router.

(** ** [ucw/db/sqlite.py]: the life cycle of the capture database *)

Module Sqlite.

Inductive Connection := Open | Closed.

Record CaptureDB := {
  _conn : option Connection;
  _session_id : option string;
}.

(** [CaptureDB.__init__] *)
Definition new : CaptureDB := {| _conn := None; _session_id := None |}.

Definition initialize `{Runtime} : M CaptureDB unit :=
  λ self,
    match db_initialize with
    | Ok _ =>
        (Ok (),
         {| _conn := Some Open;
            _session_id :=
              Some ("mcp-" +:+ pretty (time_ns 0 `div` 1000000000)%Z) |})
    | Raise exc => (Raise exc, self)
    end.

(** [store_event] returns early without a connection and catches every
    failure of the insert itself: it never raises. *)
Definition store_event : Capture.Sink := λ _, Ok ().

(** [close]: the session is finalized through the connection, which
    fails once the connection is closed. *)
Definition close : M CaptureDB unit :=
  λ self,
    match _conn self, _session_id self with
    | Some Open, Some _ =>
        (Ok (), {| _conn := Some Closed; _session_id := _session_id self |})
    | Some Closed, Some _ =>
        (Raise (ProgrammingError "Cannot operate on a closed database."),
         self)
    | _, _ => (Ok (), self)
    end.

End Sqlite.

(** ** [ucw/server/server.py] *)

Module Server.
Import Protocol.

(** The background initialization task, as [shutdown] and
    [_ensure_db_ready] see it. It makes progress only where the main
    path awaits it. *)
Inductive Task := Pending | Done | Cancelled.

Record RawMCPServer := {
  _capture : Capture.CaptureEngine;
  _transport : Transport.RawStdioTransport;
  _router : Router.Router;
  _db : option Sqlite.CaptureDB;
  _running : bool;
  _db_ready : bool;
  _db_init_task : option Task;
  _handshake_complete : bool;
}.

(** [RawMCPServer.__init__] *)
Definition new : RawMCPServer :=
  {| _capture := Capture.new; _transport := Transport.new;
     _router := Router.new; _db := None; _running := false;
     _db_ready := false; _db_init_task := None;
     _handshake_complete := false |}.

Definition set_capture (f : Capture.CaptureEngine → Capture.CaptureEngine)
    (s : RawMCPServer) : RawMCPServer :=
  {| _capture := f (_capture s); _transport := _transport s;
     _router := _router s; _db := _db s; _running := _running s;
     _db_ready := _db_ready s; _db_init_task := _db_init_task s;
     _handshake_complete := _handshake_complete s |}.

Definition set_transport
    (f : Transport.RawStdioTransport → Transport.RawStdioTransport)
    (s : RawMCPServer) : RawMCPServer :=
  {| _capture := _capture s; _transport := f (_transport s);
     _router := _router s; _db := _db s; _running := _running s;
     _db_ready := _db_ready s; _db_init_task := _db_init_task s;
     _handshake_complete := _handshake_complete s |}.

Definition set_router (r : Router.Router) (s : RawMCPServer)
    : RawMCPServer :=
  {| _capture := _capture s; _transport := _transport s;
     _router := r; _db := _db s; _running := _running s;
     _db_ready := _db_ready s; _db_init_task := _db_init_task s;
     _handshake_complete := _handshake_complete s |}.

Definition set_db (d : option Sqlite.CaptureDB) (s : RawMCPServer)
    : RawMCPServer :=
  {| _capture := _capture s; _transport := _transport s;
     _router := _router s; _db := d; _running := _running s;
     _db_ready := _db_ready s; _db_init_task := _db_init_task s;
     _handshake_complete := _handshake_complete s |}.

Definition set_running (b : bool) (s : RawMCPServer) : RawMCPServer :=
  {| _capture := _capture s; _transport := _transport s;
     _router := _router s; _db := _db s; _running := b;
     _db_ready := _db_ready s; _db_init_task := _db_init_task s;
     _handshake_complete := _handshake_complete s |}.

Definition set_db_ready (b : bool) (s : RawMCPServer) : RawMCPServer :=
  {| _capture := _capture s; _transport := _transport s;
     _router := _router s; _db := _db s; _running := _running s;
     _db_ready := b; _db_init_task := _db_init_task s;
     _handshake_complete := _handshake_complete s |}.

Definition set_db_init_task (t : option Task) (s : RawMCPServer)
    : RawMCPServer :=
  {| _capture := _capture s; _transport := _transport s;
     _router := _router s; _db := _db s; _running := _running s;
     _db_ready := _db_ready s; _db_init_task := t;
     _handshake_complete := _handshake_complete s |}.

Definition set_handshake_complete (b : bool) (s : RawMCPServer)
    : RawMCPServer :=
  {| _capture := _capture s; _transport := _transport s;
     _router := _router s; _db := _db s; _running := _running s;
     _db_ready := _db_ready s; _db_init_task := _db_init_task s;
     _handshake_complete := b |}.

Definition register_tools (tools_list : list json)
    (handler : Router.Handler) : M RawMCPServer unit :=
  λ s, let '(r, router) :=
         Router.register_tools_module tools_list handler (_router s) in
       (r, set_router router s).

Definition register_resources (resources : list json)
    (handler : Router.ResourceHandler) : M RawMCPServer unit :=
  λ s, let '(r, router) :=
         Router.register_resources resources handler (_router s) in
       (r, set_router router s).

(** The transport's hook, [on_capture=self._capture.capture]. *)
Definition on_capture `{Runtime} : Transport.Hook Capture.CaptureEngine :=
  λ c, Capture.capture (Transport.cc_raw_bytes c) (Transport.cc_parsed c)
         (Transport.cc_timestamp_ns c) (Transport.cc_direction c)
         (Transport.cc_parent_protocol_id c) (Transport.cc_error c).

(** [self._transport.read_message()] *)
Definition read_message `{Runtime}
    : M RawMCPServer (option (bytes * json)) :=
  λ s, let '(r, t, e) :=
         Transport.read_message on_capture
           (time_ns (Capture.event_count (_capture s)))
           (_transport s) (_capture s) in
       (r, set_transport (λ _, t) (set_capture (λ _, e) s)).

(** [self._transport.write_message(message, request_id=request_id)] *)
Definition write_message `{Runtime} (message request_id : json)
    : M RawMCPServer unit :=
  λ s, let '(r, t, e) :=
         Transport.write_message on_capture
           (time_ns (Capture.event_count (_capture s)))
           message request_id (_transport s) (_capture s) in
       (r, set_transport (λ _, t) (set_capture (λ _, e) s)).

(** [_init_db_background]; the embedding pipeline and the injection of
    the database into the tool modules have no part in the pipeline. *)
Definition _init_db_background `{Runtime} : M RawMCPServer unit :=
  try_except
    (modify (set_db (Some Sqlite.new));;
     (λ s, let '(r, db) := Sqlite.initialize Sqlite.new in
           (r, set_db (Some db) s));;
     modify (set_capture (Capture.set_db_sink Sqlite.store_event));;
     modify (set_db_ready true))
    (λ exc, pass).

Definition _ensure_db_ready `{Runtime} : M RawMCPServer unit :=
  ready ← gets _db_ready;
  task ← gets _db_init_task;
  if (ready : bool) then pass
  else match (task : option Task) with
       | Some Pending =>
           _init_db_background;; modify (set_db_init_task (Some Done))
       | _ => pass
       end.

(** [if self._db: await self._db.close()] *)
Definition close_db : M RawMCPServer unit :=
  λ s, match _db s with
       | Some db =>
           let '(r, db) := Sqlite.close db in (r, set_db (Some db) s)
       | None => (Ok (), s)
       end.

Definition shutdown : M RawMCPServer unit :=
  running ← gets _running;
  if negb (running : bool) then pass
  else
    modify (set_running false);;
    (* a task still pending is cancelled and awaited *)
    modify (λ s, match _db_init_task s with
                 | Some Pending => set_db_init_task (Some Cancelled) s
                 | _ => s
                 end);;
    modify (set_transport Transport.close);;
    close_db.

Definition _handle_message `{Runtime} (msg : json) : M RawMCPServer unit :=
  request_id ← lift (Py.get msg "id" JNull);
  method ← lift (Py.get msg "method" (JStr ""));
  (if Py.eq_str method "initialized"
      || Py.eq_str method "notifications/initialized"
   then modify (set_handshake_complete true) else pass);;
  try_except
    (msg_type ← lift (validate_message msg);
     (if Py.eq_str method "tools/call" then _ensure_db_ready
      else pass);;
     result ← (λ s, let '(r, router) :=
                      Router.route msg_type msg (_router s) in
                    (r, set_router router s));
     if negb (Py.is_not_None result) then pass
     else write_message (make_response request_id result) request_id)
    (λ exc,
       match exc with
       | ProtocolError code message data =>
           if Py.is_not_None request_id
           then write_message (make_error request_id code message data)
                  request_id
           else pass
       | _ =>
           if Py.is_not_None request_id
           then write_message
                  (make_error request_id INTERNAL_ERROR (exc_str exc) JNull)
                  request_id
           else pass
       end).

(** The [while self._running] loop of [run]; [None] when [fuel]
    iterations did not reach its end. *)
Fixpoint run_loop `{Runtime} (fuel : nat) (s : RawMCPServer)
    : option (result unit * RawMCPServer) :=
  match fuel with
  | O => None
  | S fuel =>
      if negb (_running s) then Some (Ok (), s)
      else
        match read_message s with
        | (Raise exc, s) => Some (Raise exc, s)
        | (Ok None, s) => Some (Ok (), s)          (* [break] *)
        | (Ok (Some (raw_bytes, parsed)), s) =>
            match _handle_message parsed s with
            | (Raise exc, s) => Some (Raise exc, s)
            | (Ok _, s) => run_loop fuel s
            end
        end
  end.

(** [run]: [bridge] is the [UCWBridgeAdapter], [stdin] the input the
    process will receive, cut as [Transport.start] describes. *)
Definition run `{Runtime} (bridge : Capture.Bridge) (stdin : list bytes)
    (s : RawMCPServer) : option (result unit * RawMCPServer) :=
  let s := set_capture (Capture.set_ucw_bridge bridge) s in
  let s := set_transport (Transport.start stdin) s in
  let s := set_db_init_task (Some Pending) s in
  let s := set_running true s in
  match run_loop (S (length stdin)) s with
  | None => None
  | Some (_, s) =>
      (* [except Exception]: logged; [finally: await self.shutdown()] *)
      Some (shutdown s)
  end.

End Server.

(** ** A concrete runtime

    One instance of [Runtime], used to run the model on concrete frames:
    a compact serializer for frames whose strings need no escaping, a
    decoder that inverts it on the frames listed in [known_frames] and
    reports any other line as malformed, and counters for identifiers and
    the clock. *)

Module Demo.

Definition line (s : string) : bytes := String.list_byte_of_string s.

Definition quote : string := String.String (Ascii.ascii_of_nat 34) EmptyString.
Definition newline : string :=
  String.String (Ascii.ascii_of_nat 10) EmptyString.

Fixpoint dumps (v : json) : string :=
  match v with
  | JNull => "null"
  | JBool true => "true"
  | JBool false => "false"
  | JInt z => pretty z
  | JStr s => quote +:+ s +:+ quote
  | JArr xs =>
      "[" +:+ (fix items (xs : list json) : string :=
                 match xs with
                 | [] => ""
                 | [x] => dumps x
                 | x :: rest => dumps x +:+ "," +:+ items rest
                 end) xs +:+ "]"
  | JObj kvs =>
      "{" +:+ (fix members (kvs : list (string * json)) : string :=
                 match kvs with
                 | [] => ""
                 | [(k, x)] => quote +:+ k +:+ quote +:+ ":" +:+ dumps x
                 | (k, x) :: rest =>
                     quote +:+ k +:+ quote +:+ ":" +:+ dumps x +:+ ","
                     +:+ members rest
                 end) kvs +:+ "}"
  end.

Definition request (id : json) (method : string) : json :=
  JObj [("jsonrpc", JStr "2.0"); ("id", id); ("method", JStr method)].

Definition known_frames : list json :=
  [ request (JInt 1) "ping";
    request (JInt 10) "tools/list";
    request (JInt 11) "ping";
    Protocol.make_response (JInt 1) (JObj []);
    Protocol.make_notification "notifications/cancelled" JNull ].

Definition loads (raw : bytes) : result json :=
  match
    find (λ v, bool_decide (String.string_of_list_byte raw
                            = dumps v +:+ newline))
      known_frames
  with
  | Some v => Ok v
  | None =>
      Raise (JSONDecodeError "Expecting value: line 1 column 1 (char 0)")
  end.

Definition runtime : Runtime :=
  {| json_loads := loads;
     json_dumps := λ v, line (dumps v +:+ newline);
     py_repr := dumps;
     uuid4_hex16 := λ k, pretty (1000000000000000 + Z.of_nat k)%Z;
     time_ns := λ k, (1700000000000000000 + Z.of_nat k)%Z;
     db_initialize := Ok () |}.

(** An enrichment hook, a sink and an observer that always fail. *)
Definition failing_bridge : Capture.Bridge :=
  λ _, (Capture.no_layers, Raise (OtherError "bridge down")).
Definition failing_sink : Capture.Sink :=
  λ _, Raise (OtherError "disk full").
Definition failing_callback : Capture.Callback :=
  λ _, Raise (OtherError "observer crashed").

(** A tool module with one tool whose handler always fails. *)
Definition failing_tool : Router.Handler :=
  λ _ _, Raise (OtherError "boom").

End Demo.

(** ** Sessions of the capture engine *)

Module Session.
Import Transport.

(** The engine after the [capture] calls [calls], in order. A call that
    raises leaves the engine as it was. *)
Definition session `{Runtime} (calls : list capture_call)
    (self : Capture.CaptureEngine) : Capture.CaptureEngine :=
  foldl (λ self c, (Server.on_capture c self).2) self calls.

(** The [id] of the frame a call carries ([None] when it has none). *)
Definition frame_id (c : capture_call) : json :=
  match cc_parsed c with
  | JObj kvs => default JNull (Py.assoc "id" kvs)
  | _ => JNull
  end.

(** The frame of the call is a dict, so that an event is built for it. *)
Definition captured (c : capture_call) : bool :=
  match cc_parsed c with JObj _ => true | _ => false end.

(** The call is inbound and its frame carries an id that is not [None]:
    the condition under which [capture] enters the event in the request
    map. *)
Definition tracked (c : capture_call) : bool :=
  bool_decide (cc_direction c = "in") && Py.is_not_None (frame_id c).

(** The frame of the call carries a [method] key. *)
Definition has_method (c : capture_call) : bool :=
  match cc_parsed c with
  | JObj kvs => Py.contains "method" kvs
  | _ => false
  end.

(** The same condition read off the event built for the call. *)
Definition tracked_event (e : Capture.CaptureEvent) : bool :=
  bool_decide (Capture.direction e = "in")
  && Py.is_not_None (Capture.request_id e).

(** The number of tracked events among the first [n] events. *)
Definition requests_before (n : nat) (events : list Capture.CaptureEvent)
    : nat :=
  length (filter (λ e, tracked_event e = true) (take n events)).

(** The invariant of the turn counter along a session: it is the number
    of tracked events so far, and the turn of a tracked event is the number
    of tracked events up to and including it. *)
Definition turns_count_requests (self : Capture.CaptureEngine) : Prop :=
  Capture._turn_counter self
  = requests_before (length (Capture._events self)) (Capture._events self)
  ∧ ∀ i e, Capture._events self !! i = Some e → tracked_event e = true →
           Capture.turn e = requests_before (S i) (Capture._events self).

(** A new engine after [set_ucw_bridge], [set_db_sink] and [on_event] have
    attached (or not) a bridge, a sink and observers. *)
Definition configured (bridge : option Capture.Bridge)
    (sink : option Capture.Sink) (callbacks : list Capture.Callback)
    : Capture.CaptureEngine :=
  {| Capture._events := []; Capture._turn_counter := 0;
     Capture._request_map := ∅; Capture._ucw_bridge := bridge;
     Capture._db_sink := sink; Capture._event_callbacks := callbacks;
     Capture._stats := ∅; Capture.error_log := [] |}.

(** An inbound call for [frame], as [read_message] makes it. *)
Definition inbound (raw : bytes) (frame : json) (ts : Z) : capture_call :=
  {| cc_raw_bytes := raw; cc_parsed := frame; cc_timestamp_ns := ts;
     cc_direction := "in"; cc_parent_protocol_id := None;
     cc_error := None |}.

(** An outbound call for [frame], as [write_message] makes it. *)
Definition outbound `{Runtime} (frame request_id : json) (ts : Z)
    : capture_call :=
  {| cc_raw_bytes := json_dumps frame; cc_parsed := frame;
     cc_timestamp_ns := ts; cc_direction := "out";
     cc_parent_protocol_id :=
       if Py.is_not_None request_id then Some (Py.str request_id) else None;
     cc_error := None |}.

(** The call of the capture hook for a line that is not JSON. *)
Definition malformed_call (raw : bytes) (ts : Z) (exc : exn)
    : capture_call :=
  {| cc_raw_bytes := raw; cc_parsed := JObj []; cc_timestamp_ns := ts;
     cc_direction := "in"; cc_parent_protocol_id := None;
     cc_error := Some ("JSON parse error: " +:+ exc_str exc) |}.

(** Two requests, ids 10 and 11, then the responses for 11 and for 10. *)
Definition out_of_order_session : list capture_call :=
  [ inbound [] (Demo.request (JInt 10) "tools/list") 1;
    inbound [] (Demo.request (JInt 11) "ping") 2;
    outbound (H := Demo.runtime)
      (Protocol.make_response (JInt 11) (JObj [])) (JInt 11) 3;
    outbound (H := Demo.runtime)
      (Protocol.make_response (JInt 10) (JObj [("tools", JArr [])]))
      (JInt 10) 4 ].

End Session.

(** The input the server has still to read. *)
Definition pending (s : Server.RawMCPServer) : list bytes :=
  default [] (Transport._reader (Server._transport s)).

(** A method of the server that leaves the stream reader alone. *)
Definition keeps_reader {A} (m : M Server.RawMCPServer A) : Prop :=
  ∀ s, Transport._reader (Server._transport (m s).2)
       = Transport._reader (Server._transport s).

(** The handler [_handle_tools_call] selects for [name]: the one of the
    first registered module whose name set contains it. *)
Fixpoint resolve (name : json) (handlers : list (list json * Router.Handler))
    : option Router.Handler :=
  match handlers with
  | [] => None
  | (tool_names, handler) :: rest =>
      match Py.in_set name tool_names with
      | Ok true => Some handler
      | _ => resolve name rest
      end
  end.

(** ** [ucw/server/capture.py]: queries *)

Module Queries.
Import Capture.

(** An optional string as a Python value. *)
Definition opt_str (o : option string) : json :=
  match o with Some s => JStr s | None => JNull end.

(** An optional layer as a Python value. *)
Definition opt_json (o : option json) : json := default JNull o.

(** [CaptureEvent.to_dict]: the optional entries are added only when
    their value is truthy. *)
Definition to_dict (self : CaptureEvent) : json :=
  let d :=
    [("event_id", JStr (event_id self));
     ("timestamp_ns", JInt (timestamp_ns self));
     ("direction", JStr (direction self));
     ("stage", JStr (stage self));
     ("method", method self);
     ("request_id", request_id self);
     ("parent_protocol_id", opt_str (parent_protocol_id self));
     ("turn", JInt (Z.of_nat (turn self)));
     ("content_length", JInt (Z.of_nat (content_length self)))] in
  let add (key : string) (v : json) (d : list (string * json)) :=
    if Py.truthy v then d ++ [(key, v)] else d in
  let d := add "error" (opt_str (error self)) d in
  let d := add "data_layer" (opt_json (data_layer (layers self))) d in
  let d := add "light_layer" (opt_json (light_layer (layers self))) d in
  let d := add "instinct_layer"
             (opt_json (instinct_layer (layers self))) d in
  let d := add "coherence_signature"
             (opt_str (coherence_signature (layers self))) d in
  JObj d.

(** [seq[start:]]: a negative [start] counts from the end, and both ends
    are clamped to the sequence. *)
Definition slice_from {A} (start : Z) (seq : list A) : list A :=
  let n := Z.of_nat (length seq) in
  let start := if (start <? 0)%Z then Z.max 0 (start + n)
               else Z.min start n in
  drop (Z.to_nat start) seq.

(** [recent_events(limit)] *)
Definition recent_events (limit : Z) (self : CaptureEngine) : list json :=
  to_dict <$> slice_from (- limit) (_events self).

End Queries.

(** ** [ucw/server/ucw_bridge.py]: classification and signature *)

(** A Python [str] where its characters are counted and cut: the
    sequence of its code points. *)
Definition codepoints := list N.

(** An ASCII literal as a Python [str]. *)
Definition literal (s : string) : codepoints :=
  (λ c, Ascii.N_of_ascii c) <$> String.list_ascii_of_string s.

(** [hashlib.sha256(blob.encode()).hexdigest()]; [encode] raises
    [UnicodeEncodeError], a [ValueError], on a lone surrogate. *)
Class Digest := { sha256_hexdigest : codepoints → result string }.

Module Bridge.

Definition _DOMAIN_KEYWORDS : list (string * list string) :=
  [("mcp_protocol", ["mcp"; "protocol"; "stdio"; "json-rpc"; "transport"]);
   ("database", ["database"; "sql"; "schema"; "query"; "postgres"; "sqlite"]);
   ("ucw", ["ucw"; "cognitive wallet"; "coherence"; "sovereignty"]);
   ("ai_agents", ["agent"; "multi-agent"; "orchestrat"; "coordinat"]);
   ("research", ["research"; "paper"; "arxiv"; "finding"; "hypothesis"]);
   ("coding", ["function"; "class"; "import"; "variable"; "refactor";
               "debug"])].

(** [kw in text] on strings: [kw] occurs as a substring of [text]. *)
Fixpoint occurs (kw text : string) : bool :=
  String.prefix kw text
  || match text with
     | EmptyString => false
     | String _ rest => occurs kw rest
     end.

(** [sum(1 for kw in keywords if kw in text)] *)
Definition score (text : string) (keywords : list string) : nat :=
  length (filter (λ kw, occurs kw text = true) keywords).

(** The loop of [_classify], from the running best label and score. *)
Fixpoint classify_loop (text : string) (mapping : list (string * list string))
    (best : string) (best_score : nat) : string :=
  match mapping with
  | [] => best
  | (label, keywords) :: rest =>
      if best_score <? score text keywords
      then classify_loop text rest label (score text keywords)
      else classify_loop text rest best best_score
  end.

Definition _classify (text : string) (mapping : list (string * list string))
    (default : string) : string :=
  classify_loop text mapping default 0.

(** [coherence_signature]: the timestamp enters through its five-minute
    bucket only, the content through its first 1024 characters. *)
Definition coherence_signature `{Digest} (intent topic : codepoints)
    (timestamp_ns : Z) (content : codepoints) : result string :=
  let bucket := (timestamp_ns `div` (5 * 60 * 1000000000))%Z in
  let blob := intent ++ literal "::" ++ topic ++ literal "::"
              ++ literal (pretty bucket) ++ literal "::"
              ++ take 1024 content in
  sha256_hexdigest blob.

End Bridge.

(** ** [ucw/tools/ucw_tools.py] and [ucw/tools/coherence_tools.py]:
    dispatch inside a tool module *)

Module Tools.
Import Protocol.

(** A tool body [_ucw_timeline(args)] and the like: it queries the
    database and may raise. *)
Definition Body := json → result json.

(** [handlers.get(name)] for the dict literal [handlers]: its keys are
    strings, so only a string finds an entry, and the probe is hashed. *)
Fixpoint handlers_get (handlers : list (string * Body)) (name : json)
    : option Body :=
  match handlers with
  | [] => None
  | (key, body) :: rest =>
      if Py.eq_str name key then Some body else handlers_get rest name
  end.

(** The shared shape of [ucw_tools.handle_tool] and
    [coherence_tools.handle_tool]; [kind] is ["UCW"] or ["coherence"]. *)
Definition module_handle_tool `{Runtime} (kind : string)
    (handlers : list (string * Body)) (name args : json) : result json :=
  if negb (Py.hashable name) then Raise (TypeError "unhashable type")
  else
    match handlers_get handlers name with
    | None =>
        Ok (tool_result_content
              [text_content ("Unknown " +:+ kind +:+ " tool: "
                             +:+ Py.str name)] true)
    | Some handler =>
        match handler args with
        | Ok result => Ok result
        | Raise exc =>
            Ok (tool_result_content
                  [text_content ("Error in " +:+ Py.str name +:+ ": "
                                 +:+ exc_str exc)] true)
        end
    end.

(** [ucw_tools.handle_tool], over its three tool bodies. *)
Definition ucw_handle_tool `{Runtime}
    (_ucw_capture_stats _ucw_timeline _detect_emergence : Body)
    : Router.Handler :=
  module_handle_tool "UCW"
    [("ucw_capture_stats", _ucw_capture_stats);
     ("ucw_timeline", _ucw_timeline);
     ("detect_emergence", _detect_emergence)].

(** [coherence_tools.handle_tool], over its four tool bodies. *)
Definition coherence_handle_tool `{Runtime}
    (_coherence_status _coherence_moments _coherence_search
       _coherence_scan : Body) : Router.Handler :=
  module_handle_tool "coherence"
    [("coherence_status", _coherence_status);
     ("coherence_moments", _coherence_moments);
     ("coherence_search", _coherence_search);
     ("coherence_scan", _coherence_scan)].

End Tools.

(** ** Vocabulary for the server's methods *)

(** What standard output holds: the frames written so far. *)
Definition stdout_of (s : Server.RawMCPServer) : option (list bytes) :=
  Transport._stdout (Server._transport s).

(** The methods [route] knows. *)
Definition known_methods : list string :=
  ["initialize"; "initialized"; "notifications/initialized";
   "notifications/cancelled"; "ping"; "tools/list"; "tools/call";
   "resources/list"; "resources/read"].

(** A method of the server that keeps the state property [P]. *)
Definition maintains {A} (P : Server.RawMCPServer → Prop)
    (m : M Server.RawMCPServer A) : Prop :=
  ∀ s, P s → P (m s).2.

(** The events the server's engine has recorded. *)
Definition events_of (s : Server.RawMCPServer) : list Capture.CaptureEvent :=
  Capture._events (Server._capture s).

(** The error frame [_handle_message] builds for an exception. *)
Definition error_frame (request_id : json) (exc : exn) : json :=
  match exc with
  | ProtocolError code message data =>
      Protocol.make_error request_id code message data
  | _ =>
      Protocol.make_error request_id Protocol.INTERNAL_ERROR (exc_str exc)
        JNull
  end.

(** The two [except] clauses of [_handle_message]: an error frame when
    the request has an id, nothing otherwise. *)
Definition error_reply `{Runtime} (request_id : json) (exc : exn)
    : M Server.RawMCPServer unit :=
  if Py.is_not_None request_id
  then Server.write_message (error_frame request_id exc) request_id
  else pass.

(** Standard output holds exactly the raw bytes of the outbound events,
    in order. *)
Definition output_is_captured (s : Server.RawMCPServer) : Prop :=
  stdout_of s
  = Some (Capture.raw_bytes
          <$> filter (λ e, Capture.direction e = "out") (events_of s)).

(** The state the read loop of [run] works in: the server is running and
    its output is captured. *)
Definition serving (s : Server.RawMCPServer) : Prop :=
  Server._running s = true ∧ output_is_captured s.


(** ** Sample data for the further properties *)

Module Samples.

(** [Demo.runtime] with a decoder that reads every line as the array
    [[1, 2]]. *)
Definition array_runtime : Runtime :=
  {| json_loads := λ _, Ok (JArr [JInt 1; JInt 2]);
     json_dumps := @json_dumps Demo.runtime;
     py_repr := @py_repr Demo.runtime;
     uuid4_hex16 := @uuid4_hex16 Demo.runtime;
     time_ns := @time_ns Demo.runtime;
     db_initialize := Ok () |}.

(** A stand-in for SHA-256: the code points of the blob in decimal. *)
Definition plain_digest : Digest :=
  {| sha256_hexdigest := λ blob, Ok (String.concat "." (pretty <$> blob)) |}.

(** A content of 1024 characters, each of two bytes in UTF-8. *)
Definition long_content : codepoints := replicate 1024 233%N.

(** A line of 70000 bytes and a newline, beyond the limit of the
    reader. *)
Definition long_line : bytes :=
  replicate (N.to_nat 70000) Byte.x61 ++ [Byte.x0a].

(** A new server whose transport has been started on an empty input. *)
Definition started : Server.RawMCPServer :=
  Server.set_transport (Transport.start []) Server.new.

(** A tool body that answers and one that fails. *)
Definition stats_body : Tools.Body :=
  λ _, Ok (Protocol.tool_result_content
             [Protocol.text_content "0 events"] false).
Definition failing_body : Tools.Body :=
  λ _, Raise (OtherError "no database").

(** The tool list and the handler of the UCW tool module. *)
Definition ucw_tools : list json :=
  [JObj [("name", JStr "ucw_capture_stats")];
   JObj [("name", JStr "ucw_timeline")];
   JObj [("name", JStr "detect_emergence")]].
Definition ucw_bodies : list (string * Tools.Body) :=
  [("ucw_capture_stats", stats_body); ("ucw_timeline", failing_body);
   ("detect_emergence", failing_body)].

End Samples.

(** * Properties *)

(** ** Message protocol *)

(** C7. Round trip: for every request id and result value,
    [validate_message (make_response id result)] classifies the frame as
    a response; for every id, code and message (and any [data]),
    [validate_message (make_error id code message)] classifies the frame
    as an error. *)
Theorem validate_make_roundtrip :
  (∀ request_id result,
     Protocol.validate_message (Protocol.make_response request_id result)
     = Ok "response")
  ∧ (∀ request_id code message data,
       Protocol.validate_message
         (Protocol.make_error request_id code message data)
       = Ok "error").
Proof. split; intros; reflexivity. Qed.

(** C10. A map with the right version tag that has a [method] key is a
    request when it has an [id] key and a notification when it has none,
    whatever other keys it carries; and a map with the right version tag is
    rejected only for what it lacks (no [method], and no [id] or neither
    [result] nor [error]), never for carrying several of [method],
    [result], [error]. *)
Theorem method_key_takes_precedence (kvs : list (string * json)) :
  Py.assoc "jsonrpc" kvs = Some (JStr "2.0") →
  (Py.contains "method" kvs = true →
   Protocol.validate_message (JObj kvs)
   = Ok (if Py.contains "id" kvs then "request" else "notification"))
  ∧ (is_Ok (Protocol.validate_message (JObj kvs)) = false →
     Py.contains "method" kvs = false
     ∧ (Py.contains "id" kvs = false
        ∨ (Py.contains "result" kvs = false
           ∧ Py.contains "error" kvs = false))).
Proof.
  intros Hver. unfold Protocol.validate_message. rewrite Hver. simpl.
  split.
  - intros ->. reflexivity.
  - destruct (Py.contains "method" kvs); [discriminate|].
    destruct (Py.contains "result" kvs), (Py.contains "id" kvs),
      (Py.contains "error" kvs); simpl; intros; try discriminate; auto.
Qed.

Lemma method_key_takes_precedence_witness :
  Protocol.validate_message
    (JObj [("jsonrpc", JStr "2.0"); ("id", JInt 1); ("method", JStr "ping");
           ("result", JObj []); ("error", JObj [])])
  = Ok "request".
Proof.
  apply (method_key_takes_precedence
           [("jsonrpc", JStr "2.0"); ("id", JInt 1); ("method", JStr "ping");
            ("result", JObj []); ("error", JObj [])]); reflexivity.
Defined.

(** ** Method router *)

Lemma tools_call_loop_resolved `{Runtime} name args handlers handler :
  resolve name handlers = Some handler →
  Router.tools_call_loop name args handlers
  = match handler name args with
    | Ok result => Ok result
    | Raise exc =>
        Ok (Protocol.tool_result_content
              [Protocol.text_content ("Tool error: " +:+ exc_str exc)] true)
    end.
Proof.
  induction handlers as [|[tool_names h] rest IH]; simpl; [discriminate|].
  unfold Py.in_set. destruct (Py.hashable name) eqn:Hh.
  - destruct (existsb (Py.eq_scalar name) tool_names).
    + intros [= ->]. reflexivity.
    + exact IH.
  - (* an unhashable name resolves to nothing *)
    intros Hres. exfalso. clear IH.
    induction rest as [|[names' h'] rest' IH']; simpl in Hres;
      [discriminate|].
    unfold Py.in_set in Hres. rewrite Hh in Hres. auto.
Qed.

Lemma tools_call_loop_protocol_error `{Runtime} name args handlers code m d :
  Router.tools_call_loop name args handlers = Raise (ProtocolError code m d) →
  code = Protocol.METHOD_NOT_FOUND ∧ resolve name handlers = None.
Proof.
  induction handlers as [|[tool_names h] rest IH]; simpl.
  - intros [= <- _ _]. auto.
  - unfold Py.in_set. destruct (Py.hashable name); [|discriminate].
    destruct (existsb (Py.eq_scalar name) tool_names); [|exact IH].
    destruct (h name args); discriminate.
Qed.

(** C6. For a [tools/call] request whose tool name resolves to a
    registered handler, a handler that raises makes the router return a
    normal result payload marked [isError], and not raise. A protocol
    error leaves [_handle_tools_call] only when no handler was selected:
    [INVALID_PARAMS] for a missing name, [METHOD_NOT_FOUND] for a name no
    module registered. *)
Theorem handler_failure_is_tool_level_error `{Runtime}
    (self : Router.Router) (kvs : list (string * json)) :
  let name := default (JStr "") (Py.assoc "name" kvs) in
  let args := default (JObj []) (Py.assoc "arguments" kvs) in
  (∀ handler exc,
     Py.truthy name = true →
     resolve name (Router._tool_handlers self) = Some handler →
     handler name args = Raise exc →
     Router._handle_tools_call (JObj kvs) self
     = Ok (Protocol.tool_result_content
             [Protocol.text_content ("Tool error: " +:+ exc_str exc)] true)
     ∧ Py.get (Protocol.tool_result_content
                 [Protocol.text_content ("Tool error: " +:+ exc_str exc)]
                 true) "isError" JNull
       = Ok (JBool true))
  ∧ (∀ code message data,
       Router._handle_tools_call (JObj kvs) self
       = Raise (ProtocolError code message data) →
       (code = Protocol.INVALID_PARAMS ∧ Py.truthy name = false)
       ∨ (code = Protocol.METHOD_NOT_FOUND
          ∧ resolve name (Router._tool_handlers self) = None)).
Proof.
  intros name args. unfold Router._handle_tools_call. simpl.
  fold name args. split.
  - intros handler exc Htruthy Hres Hraise. rewrite Htruthy. simpl.
    rewrite (tools_call_loop_resolved _ _ _ _ Hres), Hraise.
    split; reflexivity.
  - intros code message data. destruct (Py.truthy name); simpl.
    + intros Herr. right. eapply tools_call_loop_protocol_error, Herr.
    + intros [= <- _ _]. left. auto.
Qed.

Lemma handler_failure_is_tool_level_error_witness :
  Router._handle_tools_call (H := Demo.runtime)
    (JObj [("name", JStr "boom"); ("arguments", JObj [])])
    {| Router._tools := [JObj [("name", JStr "boom")]];
       Router._tool_handlers := [([JStr "boom"], Demo.failing_tool)];
       Router._resources := []; Router._resource_handlers := [];
       Router._initialized := true |}
  = Ok (JObj [("content", JArr [JObj [("type", JStr "text");
                                      ("text", JStr "Tool error: boom")]]);
              ("isError", JBool true)]).
Proof.
  apply (proj1 (handler_failure_is_tool_level_error (H := Demo.runtime)
                  {| Router._tools := [JObj [("name", JStr "boom")]];
                     Router._tool_handlers :=
                       [([JStr "boom"], Demo.failing_tool)];
                     Router._resources := [];
                     Router._resource_handlers := [];
                     Router._initialized := true |}
                  [("name", JStr "boom"); ("arguments", JObj [])])
           Demo.failing_tool (OtherError "boom"));
    reflexivity.
Defined.

(** ** Frame transport *)

(** [close] changes nothing but the [running] flag, which neither
    [read_message] nor [write_message] reads. *)
Lemma read_message_ignores_running `{Runtime} {E} (hook : Transport.Hook E)
    ts (t : Transport.RawStdioTransport) (e : E) :
  Transport.read_message hook ts (Transport.close t) e
  = let '(r, t', e') := Transport.read_message hook ts t e in
    (r, Transport.close t', e').
Proof.
  destruct t as [running [pending|] written]; [|reflexivity].
  unfold Transport.read_message, Transport.close. simpl.
  destruct (Transport.readline pending) as [[raw|exc] rest]; [|reflexivity].
  case_bool_decide; [reflexivity|].
  destruct (json_loads raw) as [parsed|[]]; simpl;
    try reflexivity.
  - destruct (hook _ e) as [[] e']; reflexivity.
  - destruct (hook _ e) as [r e']; reflexivity.
Qed.

Lemma write_message_ignores_running `{Runtime} {E} (hook : Transport.Hook E)
    ts message request_id (t : Transport.RawStdioTransport) (e : E) :
  Transport.write_message hook ts message request_id (Transport.close t) e
  = let '(r, t', e') :=
      Transport.write_message hook ts message request_id t e in
    (r, Transport.close t', e').
Proof.
  destruct t as [running reader [written|]]; [|reflexivity].
  unfold Transport.write_message, Transport.close. simpl.
  destruct (hook _ e) as [[] e']; reflexivity.
Qed.

(** C8, as the code has it. [close] only clears the [running] flag; a
    later [read_message] or [write_message] does what it would have done
    on the open transport: the same result, the same call of the capture
    hook, the same line taken from the input and the same bytes written
    to the output. *)
Theorem close_only_clears_running `{Runtime} {E} (hook : Transport.Hook E)
    ts message request_id (t : Transport.RawStdioTransport) (e : E) :
  Transport.running (Transport.close t) = false
  ∧ Transport.read_message hook ts (Transport.close t) e
    = (let '(r, t', e') := Transport.read_message hook ts t e in
       (r, Transport.close t', e'))
  ∧ Transport.write_message hook ts message request_id (Transport.close t) e
    = (let '(r, t', e') :=
         Transport.write_message hook ts message request_id t e in
       (r, Transport.close t', e')).
Proof.
  split; [reflexivity|].
  split; [apply read_message_ignores_running
         |apply write_message_ignores_running].
Qed.

(** C8 as stated fails: on a closed transport [write_message] succeeds
    and writes the frame to standard output, and [read_message] takes the
    next line from the input, has it captured and returns the frame. *)
Lemma closed_transport_still_performs_io :
  ¬ (∀ (rt : Runtime) (ts : Z) (message request_id : json)
       (t : Transport.RawStdioTransport) (e : Capture.CaptureEngine),
       (let '(r, t', e') :=
          Transport.write_message Server.on_capture ts message request_id
            (Transport.close t) e in
        is_Ok r = false ∨ (t' = Transport.close t ∧ e' = e))
       ∧ (let '(r, t', e') :=
            Transport.read_message Server.on_capture ts
              (Transport.close t) e in
          is_Ok r = false ∨ (t' = Transport.close t ∧ e' = e))).
Proof.
  intros Hclaim.
  destruct (Hclaim Demo.runtime 0%Z
              (Protocol.make_response (JInt 1) (JObj [])) (JInt 1)
              (Transport.start [] Transport.new) Capture.new)
    as [[Hw|[Hw _]] _]; vm_compute in Hw; discriminate.
Qed.

(** ** Server orchestrator *)

(** Closing the database twice is the failure [shutdown] guards against. *)
Lemma close_db_twice_fails :
  let db := {| Sqlite._conn := Some Sqlite.Open;
               Sqlite._session_id := Some "mcp-1" |} in
  is_Ok (Sqlite.close (Sqlite.close db).2).1 = false.
Proof. reflexivity. Qed.

(** C9. A second [shutdown] returns at once and leaves the server as the
    first one left it: the background task is not cancelled again, the
    transport and the database are not closed again, and nothing is
    raised, whatever the first call met. *)
Theorem shutdown_twice_is_shutdown_once (s : Server.RawMCPServer) :
  Server.shutdown (Server.shutdown s).2 = (Ok (), (Server.shutdown s).2).
Proof.
  destruct s as [capture transport router db [] ready task handshake];
    [|reflexivity].
  destruct task as [[]|], db as [[[[]|] [session|]]|]; reflexivity.
Qed.

(** ** Capture engine *)

Section capture_facts.
Context `{Runtime}.
Import Capture.

(** What one [capture] call of a dict frame does, field by field. *)
Lemma capture_dict raw kvs ts dir pp err (self : CaptureEngine) :
  let id := default JNull (Py.assoc "id" kvs) in
  let inbound := bool_decide (dir = "in") && Py.is_not_None id in
  let outbound := bool_decide (dir = "out") && Py.is_not_None id in
  let stage := if bool_decide (dir = "in") then "received" else "sent" in
  ∃ event log,
    capture raw (JObj kvs) ts dir pp err self
    = (Ok (),
       {| _events := _events self ++ [event];
          _turn_counter := if inbound then S (_turn_counter self)
                           else _turn_counter self;
          _request_map := if inbound
                          then <[Py.str id := event]> (_request_map self)
                          else _request_map self;
          _ucw_bridge := _ucw_bridge self; _db_sink := _db_sink self;
          _event_callbacks := _event_callbacks self;
          _stats := bump "total" (bump (dir +:+ "_" +:+ stage)
                                    (_stats self));
          error_log := log |})
    ∧ event_id event = uuid4_hex16 (length (_events self))
    ∧ direction event = dir
    ∧ request_id event = id
    ∧ error event = err
    ∧ turn event
      = (if inbound then S (_turn_counter self)
         else match (if outbound then _request_map self !! Py.str id
                     else None) with
              | Some parent => turn parent
              | None => 0
              end)
    ∧ parent_protocol_id event
      = match (if outbound then _request_map self !! Py.str id
               else None) with
        | Some parent => Some (event_id parent)
        | None => pp
        end.
Proof.
  intros id inbound outbound stage. subst inbound outbound.
  unfold capture, CaptureEvent_init, lineage. simpl. fold id. fold stage.
  destruct (bool_decide (dir = "in")) eqn:Hin.
  - apply bool_decide_eq_true in Hin. subst dir. simpl.
    destruct (Py.is_not_None id); simpl;
      destruct (_ucw_bridge self) as [bridge|]; simpl;
      try destruct (bridge _) as [l r];
      eexists; eexists; (split; [reflexivity|]); simpl; tauto.
  - simpl. destruct (bool_decide (dir = "out")); simpl;
      [destruct (Py.is_not_None id); simpl;
       [destruct (_request_map self !! Py.str id) as [parent|]|]|];
      simpl;
      destruct (_ucw_bridge self) as [bridge|]; simpl;
      try destruct (bridge _) as [l r];
      eexists; eexists; (split; [reflexivity|]); simpl; tauto.
Qed.

(** A frame that is no dict raises in the constructor: nothing changes. *)
Lemma capture_not_dict raw parsed ts dir pp err (self : CaptureEngine) :
  (∀ kvs, parsed ≠ JObj kvs) →
  (capture raw parsed ts dir pp err self).2 = self.
Proof.
  intros Hnd. unfold capture, CaptureEvent_init.
  destruct parsed; simpl; try reflexivity. exfalso. eapply Hnd. reflexivity.
Qed.

End capture_facts.

Lemma string_app_length (a b : string) :
  String.length (a +:+ b) = String.length a + String.length b.
Proof. induction a as [|c a IH]; simpl; [reflexivity|]. by rewrite IH. Qed.

(** The per-category statistics key is never the key of the grand total. *)
Lemma stage_key_not_total (dir : string) :
  dir +:+ "_" +:+ (if bool_decide (dir = "in") then "received" else "sent")
  ≠ "total".
Proof.
  destruct dir as [|c dir]; [vm_compute; discriminate|].
  intros Heq. apply (f_equal String.length) in Heq.
  rewrite !string_app_length in Heq.
  destruct (bool_decide _); simpl in Heq; lia.
Qed.

Section capture_properties.
Context `{Runtime}.
Import Capture Transport Session.

(** C5, as the code has it. For a frame that is a dict, as the signature
    of [capture] declares, and whatever the enrichment hook, the
    persistence sink and the observer callbacks attached to the engine do,
    raising included, [capture] returns normally; the event is appended to
    the in-memory list and counted in the statistics, in the grand total
    and under its direction and stage. *)
Theorem capture_returns_normally (raw : bytes) (kvs : list (string * json))
    (ts : Z) (dir : string) (pp err : option string)
    (self : CaptureEngine) :
  let key := dir +:+ "_" +:+ (if bool_decide (dir = "in") then "received"
                              else "sent") in
  ∃ event self',
    capture raw (JObj kvs) ts dir pp err self = (Ok (), self')
    ∧ _events self' = _events self ++ [event]
    ∧ event_count self' = S (event_count self)
    ∧ stats self' !! "total" = Some (S (default 0 (stats self !! "total")))
    ∧ stats self' !! key = Some (S (default 0 (stats self !! key))).
Proof.
  intros key.
  destruct (capture_dict raw kvs ts dir pp err self)
    as (event & log & -> & _).
  eexists; eexists; split; [reflexivity|]. unfold event_count, stats. simpl.
  pose proof (stage_key_not_total dir) as Hne. fold key in Hne.
  split; [reflexivity|].
  split; [rewrite length_app; simpl; lia|].
  unfold bump. fold key. split.
  - rewrite lookup_insert_eq, lookup_insert_ne by done. reflexivity.
  - rewrite lookup_insert_ne, lookup_insert_eq by done. reflexivity.
Qed.

End capture_properties.

(** C5 as stated fails: [read_message] hands over whatever [json.loads]
    returned, and for a frame that is not a dict (here a JSON array, the
    shape of a JSON-RPC batch) the event constructor raises, [capture]
    lets the exception through and records nothing. *)
Lemma capture_raises_on_non_dict_frame :
  ¬ (∀ (rt : Runtime) (raw : bytes) (parsed : json) (ts : Z)
       (dir : string) (pp err : option string)
       (self : Capture.CaptureEngine),
       let '(r, self') := Capture.capture raw parsed ts dir pp err self in
       r = Ok ()
       ∧ Capture.event_count self' = S (Capture.event_count self)).
Proof.
  intros Hclaim.
  destruct (Hclaim Demo.runtime [] (JArr [Demo.request (JInt 1) "ping"]) 1%Z
              "in" None None Capture.new) as [Hr _].
  vm_compute in Hr. discriminate.
Qed.

(** With a bridge, a sink and an observer that all raise, the call still
    returns, the event is recorded, and each failure is one log line. *)
Example capture_with_failing_plugins :
  let self := Session.configured (Some Demo.failing_bridge)
                (Some Demo.failing_sink)
                [Demo.failing_callback; Demo.failing_callback] in
  let '(r, self') :=
    Capture.capture (H := Demo.runtime) [] (Demo.request (JInt 1) "ping") 7
      "in" None None self in
  r = Ok ()
  ∧ Capture.event_count self' = 1
  ∧ Capture.stats self' = {[ "in_received" := 1; "total" := 1 ]}
  ∧ Capture.error_log self'
    = ["UCW bridge error: bridge down"; "DB sink error: disk full";
       "Callback error: observer crashed";
       "Callback error: observer crashed"].
Proof. vm_compute. repeat split; reflexivity. Qed.

Section session_facts.
Context `{Runtime}.
Import Capture Transport Session.

Lemma session_snoc calls c (self : CaptureEngine) :
  session (calls ++ [c]) self = session [c] (session calls self).
Proof. unfold session. by rewrite foldl_snoc. Qed.

Lemma session_app calls calls' (self : CaptureEngine) :
  session (calls ++ calls') self = session calls' (session calls self).
Proof. unfold session. by rewrite foldl_app. Qed.

Lemma tracked_captured c : tracked c = true → captured c = true.
Proof.
  unfold tracked, captured, frame_id. destruct (cc_parsed c); try done;
    rewrite andb_false_r; done.
Qed.

(** One call of a session, in the vocabulary of sessions. *)
Lemma session_step c (self : CaptureEngine) :
  captured c = true →
  ∃ event,
    _events (session [c] self) = _events self ++ [event]
    ∧ _turn_counter (session [c] self)
      = (if tracked c then S (_turn_counter self) else _turn_counter self)
    ∧ _request_map (session [c] self)
      = (if tracked c
         then <[Py.str (frame_id c) := event]> (_request_map self)
         else _request_map self)
    ∧ tracked_event event = tracked c
    ∧ event_id event = uuid4_hex16 (length (_events self))
    ∧ (tracked c = true → turn event = S (_turn_counter self))
    ∧ (cc_direction c = "out" →
       turn event
       = match (if Py.is_not_None (frame_id c)
                then _request_map self !! Py.str (frame_id c) else None) with
         | Some parent => turn parent
         | None => 0
         end
       ∧ parent_protocol_id event
         = match (if Py.is_not_None (frame_id c)
                  then _request_map self !! Py.str (frame_id c)
                  else None) with
           | Some parent => Some (event_id parent)
           | None => cc_parent_protocol_id c
           end).
Proof.
  destruct c as [raw parsed ts dir pp err]. unfold captured. simpl.
  destruct parsed as [| | | | |kvs]; try done. intros _.
  unfold session, Server.on_capture, tracked, tracked_event, frame_id. simpl.
  destruct (capture_dict raw kvs ts dir pp err self)
    as (event & log & -> & Hid & Hdir & Hreq & _ & Hturn & Hparent).
  exists event. simpl. rewrite Hdir, Hreq.
  do 5 (split; [done|]). split.
  - intros Htr. rewrite Hturn, Htr. done.
  - intros ->. rewrite Hturn, Hparent. simpl. done.
Qed.

Lemma session_step_not_captured c (self : CaptureEngine) :
  captured c = false → session [c] self = self.
Proof.
  destruct c as [raw parsed ts dir pp err]. unfold captured. simpl.
  intros Hc. unfold session, Server.on_capture. simpl.
  apply capture_not_dict. intros kvs ->. done.
Qed.

(** One call changes the turn counter by one when it is tracked and
    not at all otherwise. *)
Lemma turn_counter_step c (self : CaptureEngine) :
  turn_count (session [c] self)
  = turn_count self + (if tracked c then 1 else 0).
Proof.
  unfold turn_count. destruct (captured c) eqn:Hc.
  - destruct (session_step c self Hc) as (event & _ & -> & _).
    destruct (tracked c); lia.
  - rewrite session_step_not_captured by done.
    destruct (tracked c) eqn:Ht; [|lia].
    apply tracked_captured in Ht. congruence.
Qed.

Lemma requests_before_all n (events : list CaptureEvent) :
  length events ≤ n →
  requests_before n events
  = length (filter (λ e, tracked_event e = true) events).
Proof. intros Hn. unfold requests_before. by rewrite take_ge. Qed.

Lemma requests_before_app_l n (events more : list CaptureEvent) :
  n ≤ length events →
  requests_before n (events ++ more) = requests_before n events.
Proof. intros Hn. unfold requests_before. by rewrite take_app_le. Qed.

Lemma requests_before_S n (events : list CaptureEvent) e :
  events !! n = Some e →
  requests_before (S n) events
  = requests_before n events + (if tracked_event e then 1 else 0).
Proof.
  intros He. unfold requests_before.
  rewrite (take_S_r _ _ _ He), filter_app, length_app, filter_cons, filter_nil.
  destruct (decide (tracked_event e = true)) as [->|Hne]; [done|].
  apply not_true_is_false in Hne. by rewrite Hne.
Qed.

Lemma requests_before_mono n m (events : list CaptureEvent) :
  n ≤ m → requests_before n events ≤ requests_before m events.
Proof.
  induction 1 as [|m Hle IH]; [done|].
  destruct (events !! m) as [e|] eqn:He.
  - rewrite (requests_before_S _ _ _ He). destruct (tracked_event e); lia.
  - apply lookup_ge_None in He.
    rewrite (requests_before_all (S m)) by lia.
    rewrite (requests_before_all m) in IH by lia. done.
Qed.

Lemma turns_count_requests_step c (self : CaptureEngine) :
  turns_count_requests self → turns_count_requests (session [c] self).
Proof.
  intros [Hcount Hturns]. destruct (captured c) eqn:Hc;
    [|by rewrite session_step_not_captured].
  destruct (session_step c self Hc)
    as (event & Hev & Htc & _ & Hte & _ & Hturn & _).
  assert (Hlast : (_events self ++ [event]) !! length (_events self)
                  = Some event).
  { by rewrite lookup_app_r, Nat.sub_diag by done. }
  split.
  - rewrite Htc, Hev, length_app. simpl.
    rewrite Nat.add_1_r, (requests_before_S _ _ _ Hlast).
    rewrite requests_before_app_l by done. rewrite Hte, Hcount.
    destruct (tracked c); lia.
  - intros i e. rewrite Hev. intros He Hreq.
    destruct (decide (i < length (_events self))) as [Hi|Hi].
    + rewrite lookup_app_l in He by done.
      rewrite requests_before_app_l by lia. by apply Hturns.
    + assert (i = length (_events self)) as ->.
      { apply lookup_lt_Some in He. rewrite length_app in He.
        simpl in He. lia. }
      rewrite Hlast in He. injection He as <-.
      rewrite Hte in Hreq. rewrite (Hturn Hreq).
      rewrite (requests_before_S _ _ _ Hlast).
      rewrite requests_before_app_l by done.
      rewrite Hte, Hreq, Hcount. lia.
Qed.

Lemma turns_count_requests_session calls (self : CaptureEngine) :
  turns_count_requests self → turns_count_requests (session calls self).
Proof.
  induction calls as [|c calls IH] using rev_ind; [done|].
  intros Hinv. rewrite session_snoc. by apply turns_count_requests_step, IH.
Qed.

Lemma turns_count_requests_configured bridge sink callbacks :
  turns_count_requests (configured bridge sink callbacks).
Proof. split; [done|]. intros i e. simpl. by rewrite lookup_nil. Qed.


End session_facts.

Section lineage_properties.
Context `{Runtime}.
Import Capture Transport Session.

(** C2, as the code has it. The turn counter goes up by exactly one for
    every inbound captured frame whose id is not [None], whether or not
    the frame carries a method, and stays as it is for every other frame
    (no id, outbound, or not a dict). Along a session of a new engine the
    counter is the number of such frames so far, the turn of the event of
    such a frame is the number of such frames up to and including it, and
    these turns are strictly increasing. *)
Theorem turn_counter_counts_inbound_ids :
  (∀ c (self : CaptureEngine),
     turn_count (session [c] self)
     = turn_count self + (if tracked c then 1 else 0))
  ∧ (∀ bridge sink callbacks calls,
       let self := session calls (configured bridge sink callbacks) in
       turn_count self
       = length (filter (λ e, tracked_event e = true) (_events self))
       ∧ (∀ i e, _events self !! i = Some e → tracked_event e = true →
                 turn e = requests_before (S i) (_events self))
       ∧ (∀ i j ei ej,
            i < j →
            _events self !! i = Some ei → tracked_event ei = true →
            _events self !! j = Some ej → tracked_event ej = true →
            turn ei < turn ej)).
Proof.
  split; [apply turn_counter_step|].
  intros bridge sink callbacks calls self.
  destruct (turns_count_requests_session calls _
              (turns_count_requests_configured bridge sink callbacks))
    as [Hcount Hturns].
  fold self in Hcount, Hturns.
  split; [|split].
  - unfold turn_count. rewrite Hcount. by apply requests_before_all.
  - exact Hturns.
  - intros i j ei ej Hij Hi Hri Hj Hrj.
    rewrite (Hturns _ _ Hi Hri), (Hturns _ _ Hj Hrj).
    rewrite (requests_before_S _ _ _ Hj), Hrj.
    pose proof (requests_before_mono (S i) j (_events self)). lia.
Qed.

(** C3, as the code has it. The back-reference of an outbound event is
    the identifier of the tracked event when the frame's id is not [None]
    and the request map has an entry under its string form; otherwise it
    is what the caller passed as [parent_protocol_id]. When the caller
    passes nothing, it is set exactly when such an entry exists. *)
Theorem outbound_back_reference (raw : bytes) (kvs : list (string * json))
    (ts : Z) (pp err : option string) (self : CaptureEngine) :
  let id := default JNull (Py.assoc "id" kvs) in
  let tracked_parent :=
    if Py.is_not_None id then _request_map self !! Py.str id else None in
  (∃ event self',
     capture raw (JObj kvs) ts "out" pp err self = (Ok (), self')
     ∧ _events self' = _events self ++ [event]
     ∧ parent_protocol_id event
       = match tracked_parent with
         | Some parent => Some (event_id parent)
         | None => pp
         end)
  ∧ (∃ event self',
       capture raw (JObj kvs) ts "out" None err self = (Ok (), self')
       ∧ _events self' = _events self ++ [event]
       ∧ (is_Some (parent_protocol_id event) ↔ is_Some tracked_parent)).
Proof.
  intros id tracked_parent. split.
  - destruct (capture_dict raw kvs ts "out" pp err self)
      as (event & log & -> & _ & _ & _ & _ & _ & Hparent).
    eexists; eexists. split; [reflexivity|]. split; [reflexivity|].
    exact Hparent.
  - destruct (capture_dict raw kvs ts "out" None err self)
      as (event & log & -> & _ & _ & _ & _ & _ & Hparent).
    eexists; eexists. split; [reflexivity|]. split; [reflexivity|].
    rewrite Hparent. simpl. fold id. fold tracked_parent.
    destruct tracked_parent; split; intros [x Hx]; eauto; discriminate.
Qed.


End lineage_properties.

(** Each response carries the turn and the identifier of its own
    request. *)
Example out_of_order_responses :
  map (λ e, (Capture.event_id e, Capture.direction e, Capture.turn e,
             Capture.parent_protocol_id e))
    (Capture._events
       (Session.session (H := Demo.runtime) Session.out_of_order_session
          Capture.new))
  = [ ("1000000000000000", "in", 1, None);
      ("1000000000000001", "in", 2, None);
      ("1000000000000002", "out", 2, Some "1000000000000001");
      ("1000000000000003", "out", 1, Some "1000000000000000") ].
Proof. vm_compute. reflexivity. Qed.



Lemma turn_counter_counts_inbound_ids_witness :
  let self :=
    Session.session (H := Demo.runtime) Session.out_of_order_session
      (Session.configured None None []) in
  ∃ e1 e2,
    Capture._events self !! 0 = Some e1
    ∧ Capture._events self !! 1 = Some e2
    ∧ Capture.turn e1 < Capture.turn e2
    ∧ Capture.turn e2 = Session.requests_before 2 (Capture._events self).
Proof.
  intros self.
  pose proof (turn_counter_counts_inbound_ids (H := Demo.runtime)) as Hthm.
  destruct Hthm as [_ Hthm].
  destruct (Hthm None None [] Session.out_of_order_session) as (_ & Hturn & Hlt).
  fold self in Hturn, Hlt.
  destruct (Capture._events self) as [|e1 [|e2 rest]] eqn:Hev;
    [vm_compute in Hev; discriminate..|].
  exists e1, e2. split; [reflexivity|]. split; [reflexivity|].
  assert (Session.tracked_event e1 = true ∧ Session.tracked_event e2 = true)
    as [Hr1 Hr2].
  { vm_compute in Hev. injection Hev as <- <- _. split; reflexivity. }
  split.
  - apply (Hlt 0 1); [lia|reflexivity|exact Hr1|reflexivity|exact Hr2].
  - apply (Hturn 1); [reflexivity|exact Hr2].
Defined.

(** C2 as stated fails: an inbound frame that has an id and no method
    (a response sent by the peer) moves the turn counter. *)
Lemma turn_incremented_without_method :
  ¬ (∀ (rt : Runtime) (c : Transport.capture_call)
       (self : Capture.CaptureEngine),
       Transport.cc_direction c = "in" → Session.has_method c = false →
       Capture.turn_count (Session.session [c] self)
       = Capture.turn_count self).
Proof.
  intros Hclaim.
  specialize (Hclaim Demo.runtime
    (Session.inbound [] (Protocol.make_response (JInt 1) (JObj [])) 1)
    Capture.new eq_refl eq_refl).
  vm_compute in Hclaim. discriminate.
Qed.

(** C3 as stated fails: [write_message] passes the string form of its
    request id as [parent_protocol_id], and the event keeps it when the
    request map has no entry under that id. *)
Lemma back_reference_set_without_tracked_request :
  ¬ (∀ (rt : Runtime) (c : Transport.capture_call)
       (self : Capture.CaptureEngine),
       Transport.cc_direction c = "out" →
       is_Some (last (Capture._events (Session.session [c] self))
                ≫= Capture.parent_protocol_id)
       ↔ is_Some (Capture._request_map self
                  !! Py.str (Session.frame_id c))).
Proof.
  intros Hclaim.
  destruct (Hclaim Demo.runtime
    (Session.outbound (H := Demo.runtime)
       (Protocol.make_response (JInt 7) (JObj [])) (JInt 7) 1)
    Capture.new eq_refl) as [Hset _].
  destruct Hset as [parent Hparent]; [vm_compute; eauto|].
  vm_compute in Hparent. discriminate.
Qed.

(** ** The read loop and malformed lines *)

Section read_loop.
Context `{Runtime}.
Import Transport.

(** A line beyond the limit of the reader is dropped by [readline]:
    [read_message] returns [None] without any call of the capture hook. *)
Lemma read_message_overrun {E} (hook : Hook E) ts raw rest
    (t : RawStdioTransport) (e : E) :
  _reader t = Some (raw :: rest) →
  overruns raw = true →
  read_message hook ts t e
  = (Ok None,
     {| running := running t; _reader := Some rest; _stdout := _stdout t |},
     e).
Proof.
  intros Hreader Hover. unfold read_message, readline.
  by rewrite Hreader, Hover.
Qed.

(** On a line within the limit that [json.loads] rejects, [read_message]
    hands the raw bytes and an error text to the capture hook and returns
    [None]. *)
Lemma read_message_malformed {E} (hook : Hook E) ts raw rest msg
    (t : RawStdioTransport) (e : E) :
  _reader t = Some (raw :: rest) →
  raw ≠ [] →
  overruns raw = false →
  json_loads raw = Raise (JSONDecodeError msg) →
  read_message hook ts t e
  = (Ok None,
     {| running := running t; _reader := Some rest; _stdout := _stdout t |},
     (hook (Session.malformed_call raw ts (JSONDecodeError msg)) e).2).
Proof.
  intros Hreader Hraw Hover Hloads. unfold read_message, readline.
  rewrite Hreader, Hover.
  rewrite bool_decide_eq_false_2 by done. rewrite Hloads.
  unfold Session.malformed_call. destruct (hook _ e). reflexivity.
Qed.

(** Only [JSONDecodeError] takes that path. A line [json.loads] cannot
    even decode as text falls to the outer handler, which returns [None]
    without any call of the capture hook. *)
Lemma read_message_undecodable {E} (hook : Hook E) ts raw rest msg
    (t : RawStdioTransport) (e : E) :
  _reader t = Some (raw :: rest) →
  raw ≠ [] →
  json_loads raw = Raise (UnicodeDecodeError msg) →
  read_message hook ts t e
  = (Ok None,
     {| running := running t; _reader := Some rest; _stdout := _stdout t |},
     e).
Proof.
  intros Hreader Hraw Hloads.
  destruct (overruns raw) eqn:Hover; [by apply (read_message_overrun _ _ raw)|].
  unfold read_message, readline. rewrite Hreader, Hover.
  rewrite bool_decide_eq_false_2 by done. by rewrite Hloads.
Qed.

(** [None] is also what [read_message] returns at end of file. *)
Lemma read_message_eof {E} (hook : Hook E) ts (t : RawStdioTransport)
    (e : E) :
  _reader t = Some [] →
  read_message hook ts t e
  = (Ok None,
     {| running := running t; _reader := Some []; _stdout := _stdout t |},
     e).
Proof. intros Hreader. unfold read_message. by rewrite Hreader. Qed.

(** The loop of [run] takes that [None] for the end of the input: it
    stops at the malformed line and leaves the lines after it unread. *)
Lemma run_loop_stops_at_malformed_line fuel raw rest msg
    (s : Server.RawMCPServer) :
  Server._running s = true →
  _reader (Server._transport s) = Some (raw :: rest) →
  raw ≠ [] →
  json_loads raw = Raise (JSONDecodeError msg) →
  ∃ s',
    Server.run_loop (S fuel) s = Some (Ok (), s')
    ∧ _reader (Server._transport s') = Some rest
    ∧ _stdout (Server._transport s') = _stdout (Server._transport s)
    ∧ Server._running s' = true.
Proof.
  intros Hrun Hreader Hraw Hloads. simpl. rewrite Hrun. simpl.
  unfold Server.read_message.
  destruct (overruns raw) eqn:Hover.
  - rewrite (read_message_overrun _ _ _ _ _ _ Hreader Hover).
    eexists. split; [reflexivity|]. simpl. by rewrite Hrun.
  - rewrite (read_message_malformed _ _ _ _ _ _ _ Hreader Hraw Hover
               Hloads).
    eexists. split; [reflexivity|]. simpl. by rewrite Hrun.
Qed.

End read_loop.

(** C1 fails on the code. With a line that is not JSON followed by a
    [ping] request on standard input, the server captures the first line
    with an error text and then shuts down: the request is never read and
    nothing is written. On the request alone it answers. *)
Theorem malformed_line_ends_the_read_loop :
  let bridge : Capture.Bridge := λ _, (Capture.no_layers, Ok ()) in
  let bad := Demo.line ("not json" +:+ Demo.newline) in
  let ping :=
    Demo.line (Demo.dumps (Demo.request (JInt 1) "ping")
               +:+ Demo.newline) in
  let answer :=
    Demo.line (Demo.dumps (Protocol.make_response (JInt 1) (JObj []))
               +:+ Demo.newline) in
  (∃ s,
     Server.run (H := Demo.runtime) bridge [bad; ping] Server.new
     = Some (Ok (), s)
     ∧ Transport._reader (Server._transport s) = Some [ping]
     ∧ Transport._stdout (Server._transport s) = Some []
     ∧ map Capture.error (Capture._events (Server._capture s))
       = [Some "JSON parse error: Expecting value: line 1 column 1 (char 0)"]
     ∧ Server._running s = false)
  ∧ (∃ s,
       Server.run (H := Demo.runtime) bridge [ping] Server.new
       = Some (Ok (), s)
       ∧ Transport._stdout (Server._transport s) = Some [answer]).
Proof.
  split; eexists; (split; [vm_compute; reflexivity|]);
    repeat split; reflexivity.
Qed.

(** ** Termination of the read loop *)

Section run_terminates.
Context `{Runtime}.
Import Server.

Lemma keeps_reader_bind {A B} (m : M RawMCPServer A)
    (k : A → M RawMCPServer B) :
  keeps_reader m → (∀ a, keeps_reader (k a)) → keeps_reader (m ≫= k).
Proof.
  intros Hm Hk s. unfold mbind, M_bind. specialize (Hm s).
  destruct (m s) as [[a|e] s']; simpl in *; [|done].
  by rewrite Hk.
Qed.

Lemma keeps_reader_try_except {A} (m : M RawMCPServer A) h :
  keeps_reader m → (∀ e, keeps_reader (h e)) →
  keeps_reader (try_except m h).
Proof.
  intros Hm Hh s. unfold try_except. specialize (Hm s).
  destruct (m s) as [[a|e] s']; simpl in *; [done|].
  by rewrite Hh.
Qed.

Lemma keeps_reader_lift {A} (r : result A) : keeps_reader (lift r).
Proof. done. Qed.

Lemma keeps_reader_pass : keeps_reader pass.
Proof. done. Qed.

Lemma keeps_reader_gets {A} (f : RawMCPServer → A) : keeps_reader (gets f).
Proof. done. Qed.

Lemma keeps_reader_modify (f : RawMCPServer → RawMCPServer) :
  (∀ s, Transport._reader (_transport (f s))
        = Transport._reader (_transport s)) →
  keeps_reader (modify f).
Proof. intros Hf s. apply Hf. Qed.

Lemma keeps_reader_write_message message request_id :
  keeps_reader (write_message message request_id).
Proof.
  intros s. unfold write_message, Transport.write_message.
  destruct (Transport._stdout (_transport s)); [|done].
  destruct (on_capture _ _) as [[] e]; done.
Qed.

Lemma keeps_reader_init_db_background : keeps_reader _init_db_background.
Proof.
  unfold _init_db_background.
  apply keeps_reader_try_except; [|intros; apply keeps_reader_pass].
  repeat (apply keeps_reader_bind; [|intros ?]);
    try (apply keeps_reader_modify; done).
  intros s. by destruct (Sqlite.initialize Sqlite.new) as [[] db].
Qed.

Lemma keeps_reader_ensure_db_ready : keeps_reader _ensure_db_ready.
Proof.
  unfold _ensure_db_ready.
  apply keeps_reader_bind; [apply keeps_reader_gets|intros ready].
  apply keeps_reader_bind; [apply keeps_reader_gets|intros task].
  destruct ready; [apply keeps_reader_pass|].
  destruct task as [[]|]; try apply keeps_reader_pass.
  apply keeps_reader_bind; [apply keeps_reader_init_db_background|intros ?].
  by apply keeps_reader_modify.
Qed.

Lemma keeps_reader_handle_message msg : keeps_reader (_handle_message msg).
Proof.
  unfold _handle_message.
  apply keeps_reader_bind; [apply keeps_reader_lift|intros request_id].
  apply keeps_reader_bind; [apply keeps_reader_lift|intros method].
  apply keeps_reader_bind; [|intros ?].
  { destruct (_ || _); [by apply keeps_reader_modify
                       |apply keeps_reader_pass]. }
  apply keeps_reader_try_except.
  - apply keeps_reader_bind; [apply keeps_reader_lift|intros msg_type].
    apply keeps_reader_bind; [|intros ?].
    { destruct (Py.eq_str _ _); [apply keeps_reader_ensure_db_ready
                                |apply keeps_reader_pass]. }
    apply keeps_reader_bind; [|intros result].
    { intros s. by destruct (Router.route _ _ _). }
    destruct (negb _); [apply keeps_reader_pass
                       |apply keeps_reader_write_message].
  - intros []; destruct (Py.is_not_None _);
      first [apply keeps_reader_pass|apply keeps_reader_write_message].
Qed.

Lemma read_message_pending (s : RawMCPServer) frame s' :
  read_message s = (Ok (Some frame), s') →
  length (pending s') < length (pending s).
Proof.
  unfold read_message, Transport.read_message, pending.
  destruct (Transport._reader (_transport s)) as [[|raw rest]|];
    simpl; try discriminate.
  destruct (Transport.overruns raw); [discriminate|].
  case_bool_decide; [discriminate|].
  destruct (json_loads raw) as [parsed|[]]; simpl;
    try destruct (on_capture _ _) as [[] e]; try discriminate;
    intros [= _ <-]; simpl; lia.
Qed.

(** With more fuel than there are lines to read, the loop reaches its
    end. *)
Lemma run_loop_enough_fuel fuel (s : RawMCPServer) :
  length (pending s) < fuel → is_Some (run_loop fuel s).
Proof.
  revert s. induction fuel as [|fuel IH]; intros s Hfuel; [lia|]. simpl.
  destruct (negb (_running s)); [eauto|].
  destruct (read_message s) as [[[[raw parsed]|]|exc] s1] eqn:Hread;
    [|eauto..].
  apply read_message_pending in Hread.
  pose proof (keeps_reader_handle_message parsed s1) as Hkeep.
  destruct (_handle_message parsed s1) as [[] s2]; [|eauto].
  apply IH. unfold pending in *. simpl in Hkeep. rewrite Hkeep. lia.
Qed.

(** [run] returns on every input. *)
Lemma run_terminates bridge stdin (s : RawMCPServer) :
  is_Some (run bridge stdin s).
Proof.
  unfold run.
  match goal with
  | |- context [run_loop ?fuel ?s0] =>
      destruct (run_loop_enough_fuel fuel s0) as [[r s'] ->];
        [unfold pending; simpl; lia|eauto]
  end.
Qed.

End run_terminates.

(** * Further properties of the code *)

(** ** Message protocol *)

(** What [validate_message] raises. *)
Lemma validate_message_accepts_nothing_else (msg : json) :
  is_Ok (Protocol.validate_message msg) = false →
  ∃ message,
    Protocol.validate_message msg
    = Raise (ProtocolError Protocol.INVALID_REQUEST message JNull).
Proof.
  unfold Protocol.validate_message.
  destruct msg as [| | | | |kvs]; eauto.
  destruct (negb _); eauto.
  destruct (Py.contains "method" kvs); [discriminate|].
  destruct (_ && _); [discriminate|].
  destruct (_ && _); [discriminate|]. eauto.
Qed.

(** X1. [validate_message] accepts exactly the dicts whose [jsonrpc]
    entry is the string ["2.0"] and that have a [method] key, or an [id]
    key together with a [result] or an [error] key; whatever it rejects,
    it rejects with a [ProtocolError] of code [INVALID_REQUEST] (-32600)
    and no data. *)
Theorem validate_message_accepts_exactly (msg : json) :
  (is_Ok (Protocol.validate_message msg) = true ↔
   ∃ kvs,
     msg = JObj kvs
     ∧ Py.assoc "jsonrpc" kvs = Some (JStr "2.0")
     ∧ (Py.contains "method" kvs = true
        ∨ (Py.contains "id" kvs = true
           ∧ (Py.contains "result" kvs = true
              ∨ Py.contains "error" kvs = true))))
  ∧ (∀ e, Protocol.validate_message msg = Raise e →
          ∃ message, e = ProtocolError (-32600) message JNull).
Proof.
  assert (Hver : ∀ v, Py.eq_str v "2.0" = true ↔ v = JStr "2.0").
  { intros v. unfold Py.eq_str. destruct v; try (split; discriminate).
    rewrite bool_decide_eq_true. split; congruence. }
  destruct msg as [| | | | |kvs];
    try (split; [split; [discriminate|intros (? & ? & _); discriminate]
                |intros e [= <-]; eauto]).
  unfold Protocol.validate_message, Protocol.JSONRPC_VERSION.
  split; [split|].
  - intros Hok. exists kvs. split; [done|].
    destruct (Py.assoc "jsonrpc" kvs) as [v|]; [|discriminate].
    destruct (Py.eq_str v "2.0") eqn:Heq; [|discriminate].
    apply Hver in Heq. subst v. split; [done|]. simpl in Hok.
    destruct (Py.contains "method" kvs); [by left|right].
    destruct (Py.contains "id" kvs);
      [|by rewrite !andb_false_r in Hok].
    split; [done|]. rewrite !andb_true_r in Hok.
    destruct (Py.contains "result" kvs); [by left|right].
    by destruct (Py.contains "error" kvs).
  - intros (kvs' & [= <-] & -> & Hkeys). simpl.
    destruct (Py.contains "method" kvs); [done|].
    destruct Hkeys as [?|[Hid Hkeys]]; [done|]. rewrite Hid, !andb_true_r.
    destruct (Py.contains "result" kvs); [done|].
    destruct Hkeys as [?|Herr]; [done|]. by rewrite Herr.
  - intros e.
    destruct (negb _); [intros [= <-]; eauto|].
    destruct (Py.contains "method" kvs); [discriminate|].
    destruct (_ && _); [discriminate|].
    destruct (_ && _); [discriminate|].
    intros [= <-]. eauto.
Qed.

(** X2. A frame built by [make_notification] validates as a notification
    and carries no [id], with or without parameters. *)
Theorem validate_make_notification (method : string) (params : json) :
  Protocol.validate_message (Protocol.make_notification method params)
  = Ok "notification"
  ∧ Py.get (Protocol.make_notification method params) "id" JNull = Ok JNull
  ∧ Py.get (Protocol.make_notification method params) "method" JNull
    = Ok (JStr method).
Proof.
  unfold Protocol.make_notification.
  destruct (Py.is_not_None params); repeat split; reflexivity.
Qed.

(** ** Method router: registry and dispatch *)

Section router_registry.
Context `{Runtime}.
Import Router.

Lemma eq_scalar_refl (v : json) : Py.hashable v = true → Py.eq_scalar v v = true.
Proof.
  destruct v as [|[]|z|s| |]; simpl; try done; intros _.
  - apply Z.eqb_refl.
  - by apply bool_decide_eq_true.
Qed.

Lemma in_set_elem (v : json) (names : list json) :
  Py.hashable v = true → v ∈ names → Py.in_set v names = Ok true.
Proof.
  intros Hh Hin. unfold Py.in_set. rewrite Hh. f_equal.
  apply existsb_exists. exists v. split; [by apply list_elem_of_In|].
  by apply eq_scalar_refl.
Qed.

Lemma set_of_elem (f : json → result json) ts names t :
  Py.set_of f ts = Ok names → t ∈ ts →
  ∃ v, f t = Ok v ∧ Py.hashable v = true ∧ v ∈ names.
Proof.
  revert names. induction ts as [|t' ts IH]; intros names Hset Hin;
    [by apply elem_of_nil in Hin|].
  simpl in Hset. destruct (f t') as [v'|] eqn:Hf; [|discriminate].
  destruct (Py.hashable v') eqn:Hh; [|discriminate].
  destruct (Py.set_of f ts) as [vs|]; [|discriminate].
  injection Hset as <-. apply elem_of_cons in Hin as [->|Hin].
  - exists v'. rewrite Hf. repeat split; [done|]. apply elem_of_cons. by left.
  - destruct (IH vs eq_refl Hin) as (v & ? & ? & ?).
    exists v. repeat split; try done. apply elem_of_cons. by right.
Qed.

Lemma resolve_app_Some name handlers more handler :
  resolve name handlers = Some handler →
  resolve name (handlers ++ more) = Some handler.
Proof.
  induction handlers as [|[names h] rest IH]; simpl; [discriminate|].
  destruct (Py.in_set name names) as [[]|]; auto.
Qed.

Lemma resolve_app_None name handlers more :
  resolve name handlers = None →
  resolve name (handlers ++ more) = resolve name more.
Proof.
  induction handlers as [|[names h] rest IH]; simpl; [done|].
  destruct (Py.in_set name names) as [[]|]; auto; discriminate.
Qed.

(** The outcome of [register_tools_module], case by case. *)
Lemma register_tools_module_outcome tools_list handler (self : Router) :
  register_tools_module tools_list handler self
  = match Py.set_of (λ t, Py.getitem t "name") tools_list with
    | Ok names =>
        (Ok (),
         {| _tools := _tools self ++ tools_list;
            _tool_handlers := _tool_handlers self ++ [(names, handler)];
            _resources := _resources self;
            _resource_handlers := _resource_handlers self;
            _initialized := _initialized self |})
    | Raise exc =>
        (Raise exc,
         {| _tools := _tools self ++ tools_list;
            _tool_handlers := _tool_handlers self;
            _resources := _resources self;
            _resource_handlers := _resource_handlers self;
            _initialized := _initialized self |})
    end.
Proof.
  unfold register_tools_module, mbind, M_bind, modify, lift. simpl.
  destruct (Py.set_of _ tools_list); reflexivity.
Qed.

(** X3. [route] never touches the registry: whatever the message, the
    tools, the tool handlers, the resources and the resource providers
    are afterwards what they were; the [_initialized] flag is never
    cleared, and it changes only on an [initialized] notification. *)
Theorem route_keeps_registry (msg_type : string) (msg : json)
    (self : Router) :
  let self' := (route msg_type msg self).2 in
  _tools self' = _tools self
  ∧ _tool_handlers self' = _tool_handlers self
  ∧ _resources self' = _resources self
  ∧ _resource_handlers self' = _resource_handlers self
  ∧ (_initialized self = true → _initialized self' = true)
  ∧ (_initialized self' ≠ _initialized self →
     ∃ method,
       Py.get msg "method" (JStr "") = Ok (JStr method)
       ∧ (method = "initialized" ∨ method = "notifications/initialized")).
Proof.
  unfold route, mbind, M_bind, lift, modify, gets, raise, mret, M_ret.
  assert (Hsame : ∀ self0 : Router,
            _tools self0 = _tools self0
            ∧ _tool_handlers self0 = _tool_handlers self0
            ∧ _resources self0 = _resources self0
            ∧ _resource_handlers self0 = _resource_handlers self0
            ∧ (_initialized self0 = true → _initialized self0 = true)
            ∧ (_initialized self0 ≠ _initialized self0 →
               ∃ method,
                 Py.get msg "method" (JStr "") = Ok (JStr method)
                 ∧ (method = "initialized"
                    ∨ method = "notifications/initialized"))).
  { intros self0. repeat split; try done. }
  destruct msg as [| | | | |kvs]; simpl; try apply Hsame.
  set (method := default (JStr "") (Py.assoc "method" kvs)).
  destruct (Py.eq_str method "initialize"); [simpl; apply Hsame|].
  destruct (Py.eq_str method "initialized") eqn:H1.
  { simpl. repeat split; try done. intros _.
    unfold Py.eq_str in H1. destruct method; try done.
    apply bool_decide_eq_true in H1. subst. eauto. }
  destruct (Py.eq_str method "notifications/initialized") eqn:H2.
  { simpl. repeat split; try done. intros _.
    unfold Py.eq_str in H2. destruct method; try done.
    apply bool_decide_eq_true in H2. subst. eauto. }
  clear H1 H2. simpl.
  repeat (destruct (Py.eq_str method _); [simpl; apply Hsame|]).
  simpl. apply Hsame.
Qed.

(** X4. A tool definition without a [name] makes
    [register_tools_module] raise only after the definitions were added
    to the listing: [tools/list] then shows every definition of the
    module, while no handler was registered, so [tools/call] answers as
    it did before. *)
Theorem failed_registration_lists_uncallable_tools tools_list handler
    (self : Router) exc :
  Py.set_of (λ t, Py.getitem t "name") tools_list = Raise exc →
  let '(r, self') := register_tools_module tools_list handler self in
  r = Raise exc
  ∧ _handle_tools_list self'
    = Protocol.tools_list_result (_tools self ++ tools_list)
  ∧ tool_count self' = tool_count self + length tools_list
  ∧ ∀ params, _handle_tools_call params self'
              = _handle_tools_call params self.
Proof.
  intros Hset. rewrite register_tools_module_outcome, Hset.
  unfold _handle_tools_list, tool_count. simpl.
  split; [done|]. split; [done|]. split; [by rewrite length_app|done].
Qed.

(** X5. After a successful registration every tool of the module can be
    called under its name, unless a module registered earlier already
    answers to that name: then the earlier handler keeps the name (the
    first registrant wins) and the call goes where it went before. *)
Theorem registered_tool_is_callable tools_list handler (self self' : Router)
    (t name : json) (kvs : list (string * json)) :
  register_tools_module tools_list handler self = (Ok (), self') →
  t ∈ tools_list →
  Py.getitem t "name" = Ok name →
  Py.truthy name = true →
  Py.assoc "name" kvs = Some name →
  let args := default (JObj []) (Py.assoc "arguments" kvs) in
  (resolve name (_tool_handlers self) = None →
   _handle_tools_call (JObj kvs) self'
   = match handler name args with
     | Ok result => Ok result
     | Raise exc =>
         Ok (Protocol.tool_result_content
               [Protocol.text_content ("Tool error: " +:+ exc_str exc)] true)
     end)
  ∧ (is_Some (resolve name (_tool_handlers self)) →
     _handle_tools_call (JObj kvs) self'
     = _handle_tools_call (JObj kvs) self).
Proof.
  intros Hreg Ht Hname Htruthy Hkvs args.
  rewrite register_tools_module_outcome in Hreg.
  destruct (Py.set_of _ tools_list) as [names|] eqn:Hset; [|discriminate].
  injection Hreg as <-.
  destruct (set_of_elem _ _ _ _ Hset Ht) as (v & Hv & Hh & Hin).
  rewrite Hname in Hv. injection Hv as <-.
  unfold _handle_tools_call. simpl. rewrite Hkvs. simpl. rewrite Htruthy.
  simpl. fold args. split.
  - intros Hnone. apply tools_call_loop_resolved.
    rewrite (resolve_app_None _ _ _ Hnone). simpl.
    by rewrite (in_set_elem _ _ Hh Hin).
  - intros [h Hsome].
    rewrite (tools_call_loop_resolved _ _ _ _
               (resolve_app_Some _ _ _ _ Hsome)).
    by rewrite (tools_call_loop_resolved _ _ _ _ Hsome).
Qed.

(** X6. What [_handle_resources_read] does for every [params] the router
    hands it. When [params] is not a dict (the router passes on whatever
    the frame carries under [params]) it raises [AttributeError]. When it
    is a dict, every failure is a protocol error: [INVALID_PARAMS] when
    the URI is missing or no provider has content, [INTERNAL_ERROR] when
    a provider raises. The first provider with content answers, with the
    URI echoed; a provider that raises ends the search, also when a later
    provider has the resource. *)
Theorem resources_read_outcomes (params : json) (self : Router) :
  ((∀ kvs, params ≠ JObj kvs) →
   ∃ message,
     _handle_resources_read params self = Raise (AttributeError message))
  ∧ (∀ exc, _handle_resources_read params self = Raise exc →
            ∃ message,
              (exc = AttributeError message ∧ ∀ kvs, params ≠ JObj kvs)
              ∨ exc = ProtocolError Protocol.INVALID_PARAMS message JNull
              ∨ exc = ProtocolError Protocol.INTERNAL_ERROR message JNull)
  ∧ (∀ payload, _handle_resources_read params self = Ok payload →
                ∃ kvs content,
                  params = JObj kvs
                  ∧ Py.is_not_None content = true
                  ∧ payload
                    = Protocol.resource_read_result
                        [JObj [("uri",
                                default (JStr "") (Py.assoc "uri" kvs));
                               ("mimeType", JStr "text/plain");
                               ("text", content)]])
  ∧ (∀ kvs silent provider later exc,
       params = JObj kvs →
       let uri := default (JStr "") (Py.assoc "uri" kvs) in
       Py.truthy uri = true →
       _resource_handlers self = silent ++ provider :: later →
       Forall (λ h, h uri = Ok JNull) silent →
       provider uri = Raise exc →
       _handle_resources_read params self
       = Raise (ProtocolError Protocol.INTERNAL_ERROR
                  ("Resource error: " +:+ exc_str exc) JNull)).
Proof.
  destruct params as [| | | | |kvs];
    try (split; [eauto|]; split; [intros exc [= <-]; eexists; left;
                                  split; [reflexivity|done]|];
         split; done).
  unfold _handle_resources_read. simpl.
  set (uri := default (JStr "") (Py.assoc "uri" kvs)).
  split; [intros Hnd; exfalso; by eapply Hnd|].
  destruct (Py.truthy uri) eqn:Huri; simpl.
  - split; [|split].
    + intros exc. induction (_resource_handlers self) as [|h rest IH];
        simpl; [intros [= <-]; eauto|].
      destruct (h uri) as [content|e]; [|intros [= <-]; eauto].
      destruct (Py.is_not_None content); [discriminate|exact IH].
    + intros payload.
      induction (_resource_handlers self) as [|h rest IH];
        simpl; [discriminate|].
      destruct (h uri) as [content|e]; [|discriminate].
      destruct (Py.is_not_None content) eqn:Hc; [|exact IH].
      intros [= <-]. eauto.
    + intros kvs' silent provider later exc [= <-] _ -> Hsilent Hraise.
      fold uri in Hsilent, Hraise.
      induction Hsilent as [|h silent Hh _ IH]; simpl.
      * by rewrite Hraise.
      * rewrite Hh. simpl. exact IH.
  - split; [|split].
    + intros exc [= <-]. eauto.
    + discriminate.
    + intros kvs' silent provider later exc [= <-]. fold uri. congruence.
Qed.

End router_registry.

(** ** Capture engine: the event log *)

Section event_log.
Context `{Runtime}.
Import Capture Transport Session.

(** The event one call of a session appends, as far as the call itself
    determines it. *)
Lemma session_step_event c (self : CaptureEngine) :
  captured c = true →
  ∃ event,
    _events (session [c] self) = _events self ++ [event]
    ∧ raw_bytes event = cc_raw_bytes c
    ∧ content_length event = length (cc_raw_bytes c)
    ∧ direction event = cc_direction c
    ∧ request_id event = frame_id c
    ∧ parsed event = cc_parsed c
    ∧ _stats (session [c] self) !! "total"
      = Some (S (default 0 (_stats self !! "total")))
    ∧ _request_map (session [c] self)
      = (if tracked c
         then <[Py.str (frame_id c) := event]> (_request_map self)
         else _request_map self).
Proof.
  destruct c as [raw frame ts dir pp err]. unfold captured. simpl.
  destruct frame as [| | | | |kvs]; try done. intros _.
  unfold session, Server.on_capture, tracked, frame_id. simpl.
  pose proof (stage_key_not_total dir) as Hkey.
  unfold capture, CaptureEvent_init, lineage. simpl.
  destruct (bool_decide (dir = "in")) eqn:Hin; simpl.
  - destruct (Py.is_not_None _); simpl;
      destruct (_ucw_bridge self) as [bridge|]; simpl;
      try destruct (bridge _) as [l r]; simpl;
      eexists; (split; [reflexivity|]); simpl;
      unfold bump; rewrite lookup_insert_eq, lookup_insert_ne by done;
      apply bool_decide_eq_true in Hin; subst dir; done.
  - destruct (bool_decide (dir = "out") && Py.is_not_None _); simpl;
      try destruct (_request_map self !! _) as [parent|]; simpl;
      destruct (_ucw_bridge self) as [bridge|]; simpl;
      try destruct (bridge _) as [l r]; simpl;
      eexists; (split; [reflexivity|]); simpl;
      unfold bump; rewrite lookup_insert_eq, lookup_insert_ne by done;
      done.
Qed.

(** X7. Along a session of a new engine every frame that is a dict leaves
    exactly one event, in arrival order, holding the raw bytes it came
    with and their length; the grand total of the statistics is the
    number of events; and whatever is captured later, the events already
    in the log stay as they are. *)
Theorem event_log_is_append_only bridge sink callbacks
    (calls more : list capture_call) :
  let self := session calls (configured bridge sink callbacks) in
  raw_bytes <$> _events self = cc_raw_bytes <$> filter (λ c, captured c = true) calls
  ∧ Forall (λ e, content_length e = length (raw_bytes e)) (_events self)
  ∧ default 0 (stats self !! "total") = event_count self
  ∧ _events self `prefix_of` _events (session more self).
Proof.
  intros self. split; [|split; [|split]].
  - subst self. induction calls as [|c calls IH] using rev_ind; [done|].
    rewrite session_snoc, filter_app, fmap_app, <- IH.
    rewrite filter_cons, filter_nil.
    destruct (decide (captured c = true)) as [Hc|Hc].
    + destruct (session_step_event c
                  (session calls (configured bridge sink callbacks)) Hc)
        as (event & -> & Hraw & _).
      rewrite fmap_app. simpl. by rewrite Hraw.
    + apply not_true_is_false in Hc.
      rewrite session_step_not_captured by done. by rewrite app_nil_r.
  - subst self. induction calls as [|c calls IH] using rev_ind;
      [by apply Forall_nil|].
    rewrite session_snoc. destruct (captured c) eqn:Hc;
      [|by rewrite session_step_not_captured].
    destruct (session_step_event c
                (session calls (configured bridge sink callbacks)) Hc)
      as (event & -> & Hraw & Hlen & _).
    apply Forall_app. split; [done|]. apply Forall_singleton. congruence.
  - subst self. unfold stats, event_count.
    induction calls as [|c calls IH] using rev_ind; [done|].
    rewrite session_snoc. destruct (captured c) eqn:Hc;
      [|by rewrite session_step_not_captured].
    destruct (session_step_event c
                (session calls (configured bridge sink callbacks)) Hc)
      as (event & -> & _ & _ & _ & _ & _ & -> & _).
    rewrite length_app. simpl. lia.
  - clear. generalize self. clear self.
    induction more as [|c more IH] using rev_ind; intros self; [done|].
    rewrite session_snoc. etrans; [apply IH|].
    destruct (captured c) eqn:Hc;
      [|by rewrite session_step_not_captured].
    destruct (session_step_event c (session more self) Hc)
      as (event & -> & _). by apply prefix_app_r.
Qed.




End event_log.

(** X9. [recent_events(limit)] gives the last [limit] events, oldest
    first, as their [to_dict] forms, and all of them when there are
    fewer. Its slice [-limit:] makes two limits special: with [limit = 0]
    it gives every event, not none, and with a negative limit it drops
    the first [-limit] events. *)
Theorem recent_events_is_a_suffix (limit : Z) (self : Capture.CaptureEngine) :
  let n := Z.of_nat (Capture.event_count self) in
  Queries.recent_events limit self
  `suffix_of` (Queries.to_dict <$> Capture._events self)
  ∧ Z.of_nat (length (Queries.recent_events limit self))
    = (if (0 <? limit)%Z then Z.min limit n
       else (n - Z.min (- limit) n)%Z)
  ∧ Queries.recent_events 0 self = Queries.to_dict <$> Capture._events self.
Proof.
  intros n. unfold Queries.recent_events, Queries.slice_from.
  unfold Capture.event_count in n. fold n.
  split; [|split].
  - rewrite fmap_drop. apply suffix_drop.
  - rewrite length_fmap, length_drop.
    destruct (0 <? limit)%Z eqn:Hpos.
    + apply Z.ltb_lt in Hpos.
      rewrite (proj2 (Z.ltb_lt (- limit) 0)) by lia. lia.
    + apply Z.ltb_ge in Hpos.
      rewrite (proj2 (Z.ltb_ge (- limit) 0)) by lia. lia.
  - simpl. rewrite Z.min_l by lia. done.
Qed.

(** ** Server orchestrator: handling one frame *)

Section handle_message.
Context `{Runtime}.
Import Server.

(** What [write_message] does with a dict frame on a started transport:
    one event and one chunk, the same bytes in both. *)
Lemma write_message_frame kvs request_id (s : RawMCPServer) written :
  stdout_of s = Some written →
  ∃ event s',
    write_message (JObj kvs) request_id s = (Ok (), s')
    ∧ stdout_of s' = Some (written ++ [json_dumps (JObj kvs)])
    ∧ events_of s' = events_of s ++ [event]
    ∧ Capture.raw_bytes event = json_dumps (JObj kvs)
    ∧ Capture.direction event = "out"
    ∧ Capture.parsed event = JObj kvs
    ∧ _running s' = _running s
    ∧ Transport._reader (_transport s') = Transport._reader (_transport s)
    ∧ Transport.running (_transport s') = Transport.running (_transport s)
    ∧ _db_init_task s' = _db_init_task s
    ∧ _db s' = _db s.
Proof.
  unfold stdout_of, events_of. intros Hout.
  unfold write_message, Transport.write_message. rewrite Hout.
  set (c := {| Transport.cc_raw_bytes := json_dumps (JObj kvs);
               Transport.cc_parsed := JObj kvs |}).
  destruct (session_step_event c (_capture s) eq_refl)
    as (event & Hev & Hraw & _ & Hdir & _ & Hparsed & _).
  unfold Session.session in Hev. simpl in Hev.
  destruct (on_capture c (_capture s)) as [r e] eqn:Hcap.
  assert (r = Ok ()) as ->.
  { unfold on_capture in Hcap. subst c. simpl in Hcap.
    destruct (capture_dict (json_dumps (JObj kvs)) kvs
                (time_ns (Capture.event_count (_capture s))) "out"
                (if Py.is_not_None request_id
                 then Some (Py.str request_id) else None) None (_capture s))
      as (ev & log & Heq & _).
    rewrite Heq in Hcap. by injection Hcap as <- _. }
  exists event. eexists. split; [reflexivity|]. simpl in *.
  repeat split; done.
Qed.

(** [_ensure_db_ready] returns normally and stays away from the streams,
    the event log, the registry and the [_running] flag. *)
Lemma ensure_db_ready_quiet (s : RawMCPServer) :
  (_ensure_db_ready s).1 = Ok ()
  ∧ _transport (_ensure_db_ready s).2 = _transport s
  ∧ events_of (_ensure_db_ready s).2 = events_of s
  ∧ _router (_ensure_db_ready s).2 = _router s
  ∧ _running (_ensure_db_ready s).2 = _running s.
Proof.
  unfold _ensure_db_ready, _init_db_background, try_except, mbind, M_bind,
    gets, modify, pass, events_of, Sqlite.initialize.
  destruct s as [capture transport router db running ready task handshake].
  simpl. destruct ready; simpl; [done|].
  destruct task as [[]|]; simpl; try done.
  destruct db_initialize as [[]|exc]; simpl; done.
Qed.

(** X10. [_ensure_db_ready] never raises, whatever the database start-up
    does. When the database is not ready it leaves no task pending; a
    start-up that succeeds marks the database ready and attaches it as
    the engine's sink, one that fails is swallowed and leaves the engine
    without a new sink. Nothing is read, written or captured on the way,
    and the registry is not touched. *)
Theorem ensure_db_ready_never_raises (s : RawMCPServer) :
  let '(r, s') := _ensure_db_ready s in
  r = Ok ()
  ∧ (_db_ready s = false → _db_init_task s' ≠ Some Pending)
  ∧ (_db_ready s = false → _db_init_task s = Some Pending →
     _db_ready s' = is_Ok db_initialize
     ∧ Capture._db_sink (_capture s')
       = (if is_Ok db_initialize then Some Sqlite.store_event
          else Capture._db_sink (_capture s)))
  ∧ _transport s' = _transport s
  ∧ events_of s' = events_of s
  ∧ _router s' = _router s
  ∧ _running s' = _running s.
Proof.
  unfold _ensure_db_ready, _init_db_background, try_except, mbind, M_bind,
    gets, modify, pass, events_of, Sqlite.initialize.
  destruct s as [capture transport router db running ready task handshake].
  simpl. destruct ready; simpl; [repeat split; done|].
  destruct task as [[]|]; simpl; try (repeat split; done).
  destruct db_initialize as [[]|exc]; simpl; repeat split; done.
Qed.

(** [_handle_message] on a dict frame, step by step. *)
Lemma handle_message_dict kvs (s : RawMCPServer) :
  let request_id := default JNull (Py.assoc "id" kvs) in
  let method := default (JStr "") (Py.assoc "method" kvs) in
  let s0 := if Py.eq_str method "initialized"
               || Py.eq_str method "notifications/initialized"
            then set_handshake_complete true s else s in
  _handle_message (JObj kvs) s
  = match Protocol.validate_message (JObj kvs) with
    | Raise exc => error_reply request_id exc s0
    | Ok msg_type =>
        let s1 := if Py.eq_str method "tools/call"
                  then (_ensure_db_ready s0).2 else s0 in
        let '(r, router) := Router.route msg_type (JObj kvs) (_router s1) in
        let s2 := set_router router s1 in
        match r with
        | Raise exc => error_reply request_id exc s2
        | Ok result =>
            if negb (Py.is_not_None result) then (Ok (), s2)
            else
              match write_message
                      (Protocol.make_response request_id result)
                      request_id s2 with
              | (Ok u, s3) => (Ok u, s3)
              | (Raise exc, s3) => error_reply request_id exc s3
              end
        end
    end.
Proof.
  intros request_id method s0.
  unfold _handle_message.
  generalize (Protocol.validate_message (JObj kvs)). intros validated.
  unfold mbind, M_bind, lift, try_except. simpl.
  fold request_id method.
  assert (Hs0 : (if Py.eq_str method "initialized"
                    || Py.eq_str method "notifications/initialized"
                 then modify (set_handshake_complete true) else pass) s
                = (Ok (), s0)).
  { subst s0. by destruct (_ || _). }
  rewrite Hs0.
  assert (Hreply : ∀ exc s',
            match exc with
            | ProtocolError code message data =>
                if Py.is_not_None request_id
                then write_message
                       (Protocol.make_error request_id code message data)
                       request_id
                else pass
            | _ =>
                if Py.is_not_None request_id
                then write_message
                       (Protocol.make_error request_id
                          Protocol.INTERNAL_ERROR (exc_str exc) JNull)
                       request_id
                else pass
            end s' = error_reply request_id exc s').
  { intros exc s'. unfold error_reply, error_frame.
    destruct exc; reflexivity. }
  destruct validated as [msg_type|exc]; [|apply Hreply].
  assert (Hs1 : (if Py.eq_str method "tools/call" then _ensure_db_ready
                 else pass) s0
                = (Ok (), if Py.eq_str method "tools/call"
                          then (_ensure_db_ready s0).2 else s0)).
  { destruct (Py.eq_str method "tools/call"); [|done].
    destruct (ensure_db_ready_quiet s0) as [Hens _].
    destruct (_ensure_db_ready s0) as [r s']. simpl in Hens. by subst r. }
  rewrite Hs1.
  destruct (Router.route msg_type (JObj kvs) _) as [[result|exc] router];
    [|apply Hreply].
  destruct (negb (Py.is_not_None result)); [done|].
  destruct (write_message _ request_id _) as [[u|exc] s3];
    [done|apply Hreply].
Qed.

(** What [error_reply] does on a started transport. *)
Lemma error_reply_outcome request_id exc (s : RawMCPServer) written :
  stdout_of s = Some written →
  ∃ s',
    error_reply request_id exc s = (Ok (), s')
    ∧ _running s' = _running s
    ∧ if Py.is_not_None request_id
      then ∃ event,
             stdout_of s'
             = Some (written ++ [json_dumps (error_frame request_id exc)])
             ∧ events_of s' = events_of s ++ [event]
             ∧ Capture.parsed event = error_frame request_id exc
      else s' = s.
Proof.
  intros Hout. unfold error_reply.
  destruct (Py.is_not_None request_id); [|by exists s].
  assert (∃ kvs, error_frame request_id exc = JObj kvs) as [kvs Hkvs].
  { unfold error_frame, Protocol.make_error. destruct exc; eauto. }
  rewrite Hkvs.
  destruct (write_message_frame kvs request_id s written Hout)
    as (event & s' & -> & Hw & Hev & _ & _ & Hp & Hr & _).
  exists s'. repeat split; [done|]. exists event. done.
Qed.

End handle_message.

(** ** Server orchestrator: what is answered *)

Section answers.
Context `{Runtime}.
Import Server.

(** X11. On a started transport [_handle_message] never raises for a
    dict frame, and it writes at most one frame: either nothing is
    written and nothing captured, or exactly one frame is captured and
    written, which is a response built from a result that is not [None]
    or an error frame for a request whose id is not [None]; either way
    the frame carries the id of the request. *)
Theorem handle_message_answers_at_most_once (kvs : list (string * json))
    (s : RawMCPServer) (written : list bytes) :
  stdout_of s = Some written →
  let request_id := default JNull (Py.assoc "id" kvs) in
  ∃ s',
    _handle_message (JObj kvs) s = (Ok (), s')
    ∧ ((stdout_of s' = Some written ∧ events_of s' = events_of s)
       ∨ ∃ frame event,
           stdout_of s' = Some (written ++ [json_dumps frame])
           ∧ events_of s' = events_of s ++ [event]
           ∧ Capture.parsed event = frame
           ∧ Py.get frame "id" JNull = Ok request_id
           ∧ ((∃ result, frame = Protocol.make_response request_id result
                         ∧ Py.is_not_None result = true)
              ∨ (∃ exc, frame = error_frame request_id exc
                        ∧ Py.is_not_None request_id = true))).
Proof.
  intros Hout request_id. rewrite handle_message_dict. cbv zeta.
  fold request_id.
  set (method := default (JStr "") (Py.assoc "method" kvs)).
  set (s0 := if _ || _ then set_handshake_complete true s else s).
  assert (Hs0 : stdout_of s0 = Some written ∧ events_of s0 = events_of s).
  { subst s0. by destruct (_ || _). }
  destruct Hs0 as [Hout0 Hev0].
  assert (Hreply : ∀ exc s1,
            stdout_of s1 = Some written → events_of s1 = events_of s →
            ∃ s',
              error_reply request_id exc s1 = (Ok (), s')
              ∧ ((stdout_of s' = Some written
                  ∧ events_of s' = events_of s)
                 ∨ ∃ frame event,
                     stdout_of s' = Some (written ++ [json_dumps frame])
                     ∧ events_of s' = events_of s ++ [event]
                     ∧ Capture.parsed event = frame
                     ∧ Py.get frame "id" JNull = Ok request_id
                     ∧ ((∃ result,
                           frame = Protocol.make_response request_id result
                           ∧ Py.is_not_None result = true)
                        ∨ (∃ exc, frame = error_frame request_id exc
                                  ∧ Py.is_not_None request_id = true)))).
  { intros exc s1 Hout1 Hev1.
    destruct (error_reply_outcome request_id exc s1 written Hout1)
      as (s' & -> & _ & Hcase).
    exists s'. split; [done|].
    destruct (Py.is_not_None request_id) eqn:Hid.
    - destruct Hcase as (event & Hw & He & Hp). right.
      exists (error_frame request_id exc), event. rewrite Hev1 in He.
      repeat split; try done.
      + unfold error_frame. by destruct exc.
      + right. eauto.
    - subst s'. by left. }
  destruct (Protocol.validate_message (JObj kvs)) as [msg_type|exc];
    [|by apply Hreply].
  set (s1 := if Py.eq_str method "tools/call"
             then (_ensure_db_ready s0).2 else s0).
  assert (Hs1 : stdout_of s1 = Some written ∧ events_of s1 = events_of s).
  { subst s1. destruct (Py.eq_str method "tools/call"); [|done].
    destruct (ensure_db_ready_quiet s0) as (_ & Ht & He & _).
    unfold stdout_of in *. rewrite Ht, He. done. }
  destruct Hs1 as [Hout1 Hev1].
  destruct (Router.route msg_type (JObj kvs) (_router s1))
    as [[result|exc] router]; [|by apply Hreply].
  destruct (Py.is_not_None result) eqn:Hres; simpl;
    [|exists (set_router router s1); split; [done|by left]].
  destruct (write_message_frame
              [("jsonrpc", JStr Protocol.JSONRPC_VERSION);
               ("id", request_id); ("result", result)]
              request_id (set_router router s1) written Hout1)
    as (event & s3 & Hw & Hout3 & Hev3 & _ & _ & Hp & _).
  unfold Protocol.make_response. rewrite Hw. exists s3. split; [done|].
  right. exists (Protocol.make_response request_id result), event.
  split; [exact Hout3|]. split; [by rewrite Hev3, <- Hev1|].
  split; [exact Hp|]. split; [done|]. left. eauto.
Qed.

Lemma route_unknown_method msg_type kvs (router : Router.Router) :
  let method := default (JStr "") (Py.assoc "method" kvs) in
  Forall (λ known, Py.eq_str method known = false) known_methods →
  Router.route msg_type (JObj kvs) router
  = (Raise (ProtocolError Protocol.METHOD_NOT_FOUND
              ("Unknown method: " +:+ Py.str method) JNull), router).
Proof.
  intros method Hknown. unfold known_methods in Hknown.
  repeat match goal with
         | Hf : Forall _ (_ :: _) |- _ =>
             apply Forall_cons in Hf as [? Hf]
         end.
  unfold Router.route, mbind, M_bind, lift, raise. simpl. fold method.
  repeat match goal with
         | Heq : Py.eq_str method _ = false |- _ => rewrite Heq; clear Heq
         end.
  reflexivity.
Qed.

(** X12. A request for a method the router does not know (the frame has
    the right version tag and an id that is not [None]) is answered by
    exactly one frame, the error [METHOD_NOT_FOUND] (-32601) under the
    request's id; the same frame without an id is dropped in silence. *)
Theorem unknown_method_is_answered_with_an_error
    (kvs : list (string * json)) (s : RawMCPServer) (written : list bytes) :
  let request_id := default JNull (Py.assoc "id" kvs) in
  let method := default (JStr "") (Py.assoc "method" kvs) in
  stdout_of s = Some written →
  is_Ok (Protocol.validate_message (JObj kvs)) = true →
  Forall (λ known, Py.eq_str method known = false) known_methods →
  ∃ s',
    _handle_message (JObj kvs) s = (Ok (), s')
    ∧ if Py.is_not_None request_id
      then stdout_of s'
           = Some (written
                   ++ [json_dumps
                         (Protocol.make_error request_id (-32601)
                            ("Unknown method: " +:+ Py.str method) JNull)])
      else stdout_of s' = Some written ∧ events_of s' = events_of s.
Proof.
  intros request_id method Hout Hvalid Hknown.
  rewrite handle_message_dict. cbv zeta. fold request_id method.
  destruct (Protocol.validate_message (JObj kvs)) as [msg_type|];
    [|discriminate].
  assert (Htc : Py.eq_str method "tools/call" = false).
  { unfold known_methods in Hknown.
    repeat match goal with
           | Hf : Forall _ (_ :: _) |- _ =>
               apply Forall_cons in Hf as [? Hf]
           end. done. }
  rewrite Htc. rewrite (route_unknown_method _ _ _ Hknown). fold method.
  set (s0 := if _ || _ then set_handshake_complete true s else s).
  assert (Hs0 : stdout_of s0 = Some written ∧ events_of s0 = events_of s).
  { subst s0. by destruct (_ || _). }
  destruct Hs0 as [Hout0 Hev0].
  destruct (error_reply_outcome request_id
              (ProtocolError Protocol.METHOD_NOT_FOUND
                 ("Unknown method: " +:+ Py.str method) JNull)
              (set_router (_router s0) s0) written Hout0)
    as (s' & -> & _ & Hcase).
  exists s'. split; [done|].
  destruct (Py.is_not_None request_id).
  - by destruct Hcase as (event & -> & _).
  - subst s'. done.
Qed.

(** X13. A dict frame that [validate_message] rejects is answered with
    the error [INVALID_REQUEST] (-32600) under its id when it has one
    that is not [None], and dropped in silence otherwise; it never
    reaches the router. *)
Theorem invalid_frame_is_answered_with_an_error
    (kvs : list (string * json)) (s : RawMCPServer) (written : list bytes) :
  let request_id := default JNull (Py.assoc "id" kvs) in
  stdout_of s = Some written →
  is_Ok (Protocol.validate_message (JObj kvs)) = false →
  ∃ s' message,
    _handle_message (JObj kvs) s = (Ok (), s')
    ∧ _router s' = _router s
    ∧ if Py.is_not_None request_id
      then stdout_of s'
           = Some (written
                   ++ [json_dumps
                         (Protocol.make_error request_id (-32600) message
                            JNull)])
      else stdout_of s' = Some written ∧ events_of s' = events_of s.
Proof.
  intros request_id Hout Hvalid.
  rewrite handle_message_dict. cbv zeta. fold request_id.
  destruct (validate_message_accepts_nothing_else (JObj kvs))
    as [message Hraise]; [done|].
  rewrite Hraise.
  set (s0 := if _ || _ then set_handshake_complete true s else s).
  assert (Hs0 : stdout_of s0 = Some written ∧ events_of s0 = events_of s
                ∧ _router s0 = _router s).
  { subst s0. by destruct (_ || _). }
  destruct Hs0 as (Hout0 & Hev0 & Hr0).
  unfold error_reply. simpl.
  destruct (Py.is_not_None request_id).
  - destruct (write_message_frame
                [("jsonrpc", JStr Protocol.JSONRPC_VERSION);
                 ("id", request_id);
                 ("error", JObj [("code", JInt Protocol.INVALID_REQUEST);
                                 ("message", JStr message)])]
                request_id s0 written Hout0)
      as (event & s' & Hw & Hout' & _).
    exists s', message. unfold Protocol.make_error. simpl.
    rewrite Hw. repeat split; try done.
    unfold write_message in Hw. 
    destruct (Transport.write_message _ _ _ _ _ _) as [[r t] e].
    injection Hw as _ <-. done.
  - exists s0, message. done.
Qed.

End answers.

Section more_answers.
Context `{Runtime}.
Import Server.

Lemma validate_method_frame kvs method :
  Py.assoc "jsonrpc" kvs = Some (JStr "2.0") →
  Py.assoc "method" kvs = Some method →
  ∃ msg_type, Protocol.validate_message (JObj kvs) = Ok msg_type.
Proof.
  intros Hver Hmethod. unfold Protocol.validate_message, Py.contains.
  rewrite Hver, Hmethod. simpl. eauto.
Qed.

(** X14. The notifications [initialized], [notifications/initialized]
    and [notifications/cancelled] are never answered, not even when the
    frame carries an id: nothing is written and nothing is captured while
    the frame is handled. *)
Theorem notifications_are_never_answered (kvs : list (string * json))
    (method : string) (s : RawMCPServer) :
  Py.assoc "jsonrpc" kvs = Some (JStr "2.0") →
  Py.assoc "method" kvs = Some (JStr method) →
  method ∈ ["initialized"; "notifications/initialized";
            "notifications/cancelled"] →
  ∃ s',
    _handle_message (JObj kvs) s = (Ok (), s')
    ∧ _transport s' = _transport s
    ∧ _capture s' = _capture s
    ∧ Router._tool_handlers (_router s') = Router._tool_handlers (_router s).
Proof.
  intros Hver Hmethod Hin. rewrite handle_message_dict. cbv zeta.
  destruct (validate_method_frame _ _ Hver Hmethod) as [msg_type ->].
  unfold Router.route, mbind, M_bind, lift, modify, mret, M_ret. simpl.
  rewrite Hmethod. simpl.
  repeat (apply elem_of_cons in Hin as [->|Hin]);
    [| | |by apply elem_of_nil in Hin];
    simpl; eexists; (split; [reflexivity|]); done.
Qed.

(** X15. Whatever the router returns that is not [None] is written as a
    response, also for a frame that has no id: the response then goes out
    under the id [null]. *)
Theorem every_result_is_answered (kvs : list (string * json))
    (s : RawMCPServer) (written : list bytes) msg_type result router :
  let request_id := default JNull (Py.assoc "id" kvs) in
  stdout_of s = Some written →
  Protocol.validate_message (JObj kvs) = Ok msg_type →
  Router.route msg_type (JObj kvs) (_router s) = (Ok result, router) →
  Py.is_not_None result = true →
  ∃ s',
    _handle_message (JObj kvs) s = (Ok (), s')
    ∧ stdout_of s'
      = Some (written
              ++ [json_dumps (Protocol.make_response request_id result)]).
Proof.
  intros request_id Hout Hvalid Hroute Hres.
  rewrite handle_message_dict. cbv zeta. fold request_id. rewrite Hvalid.
  set (s0 := if _ || _ then set_handshake_complete true s else s).
  set (s1 := if Py.eq_str _ "tools/call"
             then (_ensure_db_ready s0).2 else s0).
  assert (Hs1 : stdout_of s1 = Some written ∧ _router s1 = _router s).
  { subst s1 s0. destruct (Py.eq_str _ "tools/call").
    - match goal with
      | |- context [_ensure_db_ready ?s0] =>
          destruct (ensure_db_ready_quiet s0) as (_ & Ht & _ & Hr & _)
      end.
      unfold stdout_of in *. rewrite Ht, Hr. by destruct (_ || _).
    - by destruct (_ || _). }
  destruct Hs1 as [Hout1 Hr1]. rewrite Hr1, Hroute, Hres. simpl.
  destruct (write_message_frame
              [("jsonrpc", JStr Protocol.JSONRPC_VERSION);
               ("id", request_id); ("result", result)]
              request_id (set_router router s1) written Hout1)
    as (event & s3 & Hw & Hout3 & _).
  unfold Protocol.make_response. rewrite Hw. eauto.
Qed.

End more_answers.

(** ** Server orchestrator: the whole run *)

Section whole_run.
Context `{Runtime}.
Import Server.

Lemma maintains_bind {A B} P (m : M RawMCPServer A)
    (k : A → M RawMCPServer B) :
  maintains P m → (∀ a, maintains P (k a)) → maintains P (m ≫= k).
Proof.
  intros Hm Hk s HP. unfold mbind, M_bind. specialize (Hm s HP).
  destruct (m s) as [[a|e] s']; simpl in *; [|done]. by apply Hk.
Qed.

Lemma maintains_try_except {A} P (m : M RawMCPServer A) h :
  maintains P m → (∀ e, maintains P (h e)) → maintains P (try_except m h).
Proof.
  intros Hm Hh s HP. unfold try_except. specialize (Hm s HP).
  destruct (m s) as [[a|e] s']; simpl in *; [done|]. by apply Hh.
Qed.

(** A raising capture leaves the engine as it was. *)
Lemma on_capture_events c (e : Capture.CaptureEngine) :
  ((on_capture c e).2 = e ∧ ∃ exc, (on_capture c e).1 = Raise exc)
  ∨ ∃ event,
      (on_capture c e).1 = Ok ()
      ∧ Capture._events (on_capture c e).2 = Capture._events e ++ [event]
      ∧ Capture.direction event = Transport.cc_direction c
      ∧ Capture.raw_bytes event = Transport.cc_raw_bytes c.
Proof.
  destruct (Session.captured c) eqn:Hc.
  - right. destruct (session_step_event c e Hc)
      as (event & Hev & Hraw & _ & Hdir & _).
    exists event. unfold Session.session in Hev. simpl in Hev.
    repeat split; try done.
    destruct c as [raw frame ts dir pp err]. unfold Session.captured in Hc.
    simpl in Hc. destruct frame as [| | | | |kvs]; try done.
    unfold on_capture. simpl.
    by destruct (capture_dict raw kvs ts dir pp err e)
      as (ev & log & -> & _).
  - left. destruct c as [raw frame ts dir pp err].
    unfold Session.captured in Hc. simpl in Hc.
    unfold on_capture, Capture.capture, Capture.CaptureEvent_init. simpl.
    destruct frame; try done; simpl; eauto.
Qed.

Lemma serving_observed (s s' : RawMCPServer) :
  stdout_of s' = stdout_of s → events_of s' = events_of s →
  _running s' = _running s → serving s → serving s'.
Proof.
  unfold serving, output_is_captured.
  intros -> -> ->. done.
Qed.

Lemma filter_out_snoc (events : list Capture.CaptureEvent) event :
  filter (λ e, Capture.direction e = "out") (events ++ [event])
  = filter (λ e, Capture.direction e = "out") events
    ++ (if decide (Capture.direction event = "out") then [event] else []).
Proof. by rewrite filter_app, filter_cons, filter_nil. Qed.

Lemma serving_write_message message request_id :
  maintains serving (write_message message request_id).
Proof.
  intros s [Hrun Hcap]. unfold write_message, Transport.write_message.
  destruct (Transport._stdout (_transport s)) as [written|] eqn:Hout;
    [|by apply (serving_observed s)].
  match goal with
  | |- context [on_capture ?c _] =>
      destruct (on_capture_events c (_capture s))
        as [[Hsame [exc Hexc]]|(event & Hok & Hev & Hdir & Hraw)];
      destruct (on_capture c (_capture s)) as [r e]
  end; simpl in *.
  - subst e r. by apply (serving_observed s).
  - subst r. split; [done|].
    unfold output_is_captured, stdout_of, events_of in *. simpl.
    rewrite Hev, filter_out_snoc, Hdir, decide_True by done.
    rewrite fmap_app. simpl. rewrite Hraw. simpl.
    rewrite Hout in Hcap. injection Hcap as ->. done.
Qed.

Lemma serving_inbound_capture c (s s' : RawMCPServer) :
  Transport.cc_direction c = "in" →
  stdout_of s' = stdout_of s → _running s' = _running s →
  _capture s' = (on_capture c (_capture s)).2 →
  serving s → serving s'.
Proof.
  intros Hin Hout Hrun Hcap [Hr Hs]. split; [by rewrite Hrun|].
  unfold output_is_captured, events_of in *. rewrite Hout, Hcap.
  destruct (on_capture_events c (_capture s))
    as [[-> _]|(event & _ & -> & Hdir & _)]; [done|].
  rewrite filter_out_snoc, Hdir, Hin, decide_False by done.
  by rewrite app_nil_r.
Qed.

Lemma serving_read_message : maintains serving read_message.
Proof.
  intros s Hs. unfold read_message, Transport.read_message.
  destruct (Transport._reader (_transport s)) as [pending|];
    [|by apply (serving_observed s)].
  destruct (Transport.readline pending) as [[raw|exc] rest];
    [|by apply (serving_observed s)].
  case_bool_decide; [by apply (serving_observed s)|].
  destruct (json_loads raw) as [parsed|[]];
    try by apply (serving_observed s).
  - match goal with
    | |- context [on_capture ?c _] =>
        pose proof (serving_inbound_capture c s) as Hstep;
        destruct (on_capture c (_capture s)) as [[] e] eqn:Hc;
        simpl in *; by apply Hstep
    end.
  - match goal with
    | |- context [on_capture ?c _] =>
        pose proof (serving_inbound_capture c s) as Hstep;
        destruct (on_capture c (_capture s)) as [r e] eqn:Hc;
        simpl in *; by apply Hstep
    end.
Qed.

Lemma serving_handle_message msg : maintains serving (_handle_message msg).
Proof.
  unfold _handle_message.
  apply maintains_bind; [by intros s|intros request_id].
  apply maintains_bind; [by intros s|intros method].
  apply maintains_bind; [|intros ?].
  { destruct (_ || _); intros s Hs; [|done].
    by apply (serving_observed s). }
  apply maintains_try_except.
  - apply maintains_bind; [by intros s|intros msg_type].
    apply maintains_bind; [|intros ?].
    { destruct (Py.eq_str _ _); intros s Hs; [|done].
      destruct (ensure_db_ready_quiet s) as (_ & Ht & He & _ & Hr).
      apply (serving_observed s); try done.
      unfold stdout_of. by rewrite Ht. }
    apply maintains_bind; [|intros result].
    { intros s Hs. destruct (Router.route _ _ _) as [r router] eqn:Hr.
      by apply (serving_observed s). }
    destruct (negb _); [by intros s|apply serving_write_message].
  - intros []; destruct (Py.is_not_None _);
      first [by intros s|apply serving_write_message].
Qed.

Lemma serving_run_loop fuel (s : RawMCPServer) r s' :
  run_loop fuel s = Some (r, s') → serving s → serving s'.
Proof.
  revert s. induction fuel as [|fuel IH]; intros s; [done|]. simpl.
  destruct (negb (_running s)); [by intros [= _ <-]|].
  pose proof (serving_read_message s) as Hread.
  destruct (read_message s) as [[[[raw parsed]|]|exc] s1]; simpl in Hread;
    try (intros [= _ <-]; by apply Hread).
  pose proof (serving_handle_message parsed s1) as Hhandle.
  destruct (_handle_message parsed s1) as [[[]|exc] s2]; simpl in Hhandle.
  - intros Hloop Hs. apply (IH s2 Hloop). by apply Hhandle, Hread.
  - intros [= _ <-] Hs. by apply Hhandle, Hread.
Qed.

Lemma shutdown_of_running (s : RawMCPServer) :
  _running s = true →
  _running (shutdown s).2 = false
  ∧ Transport.running (_transport (shutdown s).2) = false
  ∧ _db_init_task (shutdown s).2 ≠ Some Pending
  ∧ stdout_of (shutdown s).2 = stdout_of s
  ∧ events_of (shutdown s).2 = events_of s.
Proof.
  destruct s as [capture transport router db running ready task handshake].
  simpl. intros ->.
  unfold shutdown, close_db, mbind, M_bind, gets, modify, pass, stdout_of,
    events_of. simpl.
  destruct task as [[]|], db as [db|]; simpl;
    try destruct (Sqlite.close db) as [r db']; simpl; done.
Qed.

(** X16. [run] on a server that has not been started and has captured
    nothing always comes to an end, whatever arrives on standard input
    and whatever the tools do, and it ends shut down: the running flags of
    server and transport are cleared and the database start-up is not left
    pending. Standard output then holds exactly the raw bytes of the
    outbound events of the log, in order: nothing reaches the peer without
    having been captured first. *)
Theorem run_ends_shut_down_with_output_captured (bridge : Capture.Bridge)
    (stdin : list bytes) (s : RawMCPServer) :
  stdout_of s = None → events_of s = [] →
  ∃ r s',
    run bridge stdin s = Some (r, s')
    ∧ _running s' = false
    ∧ Transport.running (_transport s') = false
    ∧ _db_init_task s' ≠ Some Pending
    ∧ output_is_captured s'.
Proof.
  intros Hout Hev. unfold run.
  match goal with
  | |- context [run_loop ?fuel ?s0] =>
      destruct (run_loop_enough_fuel fuel s0) as [[r s1] Hloop];
        [unfold pending; simpl; lia|];
      pose proof (serving_run_loop fuel s0 r s1 Hloop) as Hserving
  end.
  rewrite Hloop.
  destruct Hserving as [Hrun Hcap].
  { split; [done|]. unfold output_is_captured, stdout_of, events_of in *.
    simpl. by rewrite Hout, Hev. }
  destruct (shutdown_of_running s1 Hrun) as (H1 & H2 & H3 & H4 & H5).
  destruct (shutdown s1) as [r' s'] eqn:Hshut. simpl in *.
  exists r', s'. repeat split; try done.
  unfold output_is_captured. by rewrite H4, H5.
Qed.

End whole_run.

(** ** Transport: what a read does to the streams *)

Section reads.
Context `{Runtime}.
Import Transport.

(** X17. Once started, [read_message] never raises, whatever the capture
    hook does: each call consumes what one [readline] call consumes and
    leaves standard output alone. It returns a frame only when that piece
    is a line within the limit of the reader that was decoded; a line
    beyond the limit is dropped without being decoded or captured, and
    [None] is returned for it as at end of file; with nothing left to
    read the hook is not called at all. *)
Theorem read_message_consumes_one_read {E} (hook : Hook E) (ts : Z)
    (lines : list bytes) (t : RawStdioTransport) (e : E) :
  _reader t = Some lines →
  ∃ r e',
    read_message hook ts t e
    = (Ok r,
       {| running := running t; _reader := Some (tail lines);
          _stdout := _stdout t |},
       e')
    ∧ (∀ raw parsed, r = Some (raw, parsed) →
                     head lines = Some raw
                     ∧ overruns raw = false
                     ∧ json_loads raw = Ok parsed)
    ∧ (lines = [] → r = None ∧ e' = e)
    ∧ (∀ raw, head lines = Some raw → overruns raw = true →
              r = None ∧ e' = e).
Proof.
  intros Hreader. unfold read_message, readline. rewrite Hreader.
  destruct lines as [|raw rest]; simpl.
  { eexists _, _. split; [reflexivity|].
    split; [discriminate|]. split; [done|discriminate]. }
  destruct (overruns raw) eqn:Hover.
  { eexists _, _. split; [reflexivity|].
    split; [discriminate|]. split; [discriminate|done]. }
  case_bool_decide.
  { eexists _, _. split; [reflexivity|].
    split; [discriminate|]. split; [discriminate|done]. }
  destruct (json_loads raw) as [parsed|exc] eqn:Hloads.
  - destruct (hook _ e) as [[] e']; eexists _, _;
      (split; [reflexivity|]); (split; [|split; [discriminate|]]).
    + intros ? ? [= <- <-]. done.
    + intros ? [= <-]. congruence.
    + discriminate.
    + intros ? [= <-]. congruence.
  - destruct exc; try destruct (hook _ e) as [r e'];
      eexists _, _; (split; [reflexivity|]);
      (split; [discriminate|]); (split; [discriminate|]);
      intros ? [= <-]; congruence.
Qed.

(** X18. A line that is valid JSON but not an object (an array, a number,
    a string) ends the read loop just as the end of the input does: the
    engine cannot build an event for it, [read_message] swallows the
    failure and returns [None], so the loop stops with the line dropped
    from the log and the lines after it unread. *)
Theorem non_object_frame_ends_the_read_loop (fuel : nat) (raw : bytes)
    (rest : list bytes) (parsed : json) (s : Server.RawMCPServer) :
  Server._running s = true →
  _reader (Server._transport s) = Some (raw :: rest) →
  raw ≠ [] →
  json_loads raw = Ok parsed →
  (∀ kvs, parsed ≠ JObj kvs) →
  ∃ s',
    Server.run_loop (S fuel) s = Some (Ok (), s')
    ∧ pending s' = rest
    ∧ events_of s' = events_of s
    ∧ stdout_of s' = stdout_of s.
Proof.
  intros Hrun Hreader Hraw Hloads Hnd. simpl. rewrite Hrun. simpl.
  unfold Server.read_message, read_message, readline. rewrite Hreader.
  destruct (overruns raw); [by eexists|].
  rewrite bool_decide_eq_false_2 by done. rewrite Hloads.
  unfold Server.on_capture, Capture.capture, Capture.CaptureEvent_init.
  simpl.
  destruct parsed; try (exfalso; by eapply Hnd); simpl;
    eexists; (split; [reflexivity|]); done.
Qed.

(** X23. A line beyond the limit of the stream reader ends the read
    loop as well: [readline] drops it and raises, [read_message] swallows
    the failure and returns [None], and the loop stops with nothing
    captured, nothing written and the rest of the input unread. *)
Theorem oversize_line_ends_the_read_loop (fuel : nat) (raw : bytes)
    (rest : list bytes) (s : Server.RawMCPServer) :
  Server._running s = true →
  _reader (Server._transport s) = Some (raw :: rest) →
  overruns raw = true →
  ∃ s',
    Server.run_loop (S fuel) s = Some (Ok (), s')
    ∧ pending s' = rest
    ∧ events_of s' = events_of s
    ∧ stdout_of s' = stdout_of s
    ∧ Server._running s' = true.
Proof.
  intros Hrun Hreader Hover. simpl. rewrite Hrun. simpl.
  unfold Server.read_message.
  rewrite (read_message_overrun _ _ _ _ _ _ Hreader Hover).
  eexists. split; [reflexivity|]. simpl. by rewrite Hrun.
Qed.

End reads.

(** ** Tool modules behind the router *)

Section tool_modules.
Context `{Runtime}.

Lemma resolve_hashable name handlers handler :
  resolve name handlers = Some handler → Py.hashable name = true.
Proof.
  induction handlers as [|[tool_names h] rest IH]; simpl; [discriminate|].
  unfold Py.in_set. destruct (Py.hashable name); [done|]. exact IH.
Qed.

(** X19. When the name of a [tools/call] resolves to one of the tool
    modules, the router returns what the module returns and its own
    error wrapper never fires: a tool body that raises is reported by the
    module as an [isError] payload naming the tool, and a name the module
    advertises but has no body for is an [isError] payload as well, not a
    protocol error. *)
Theorem tool_module_failures_stay_in_band (kind : string)
    (bodies : list (string * Tools.Body)) (name args : json)
    (handlers : list (list json * Router.Handler)) :
  resolve name handlers = Some (Tools.module_handle_tool kind bodies) →
  ∃ payload,
    Router.tools_call_loop name args handlers = Ok payload
    ∧ match Tools.handlers_get bodies name with
      | None =>
          payload
          = Protocol.tool_result_content
              [Protocol.text_content
                 ("Unknown " +:+ kind +:+ " tool: " +:+ Py.str name)] true
      | Some body =>
          match body args with
          | Ok result => payload = result
          | Raise exc =>
              payload
              = Protocol.tool_result_content
                  [Protocol.text_content
                     ("Error in " +:+ Py.str name +:+ ": "
                      +:+ exc_str exc)] true
          end
      end.
Proof.
  intros Hres. rewrite (tools_call_loop_resolved _ _ _ _ Hres).
  unfold Tools.module_handle_tool.
  rewrite (resolve_hashable _ _ _ Hres). simpl.
  destruct (Tools.handlers_get bodies name) as [body|]; [|eauto].
  destruct (body args); eauto.
Qed.

End tool_modules.

(** ** Semantic bridge: classification and signature *)

Section bridge.
Import Bridge.

Lemma classify_loop_keep text mapping best best_score :
  Forall (λ entry, score text entry.2 ≤ best_score) mapping →
  classify_loop text mapping best best_score = best.
Proof.
  induction mapping as [|[label keywords] rest IH]; simpl; [done|].
  intros [Hhead Hrest]%Forall_cons. simpl in Hhead.
  rewrite (proj2 (Nat.ltb_ge _ _)) by done. by apply IH.
Qed.

Lemma classify_loop_pick text mapping i label keywords best best_score :
  mapping !! i = Some (label, keywords) →
  best_score < score text keywords →
  Forall (λ entry, score text entry.2 < score text keywords)
    (take i mapping) →
  Forall (λ entry, score text entry.2 ≤ score text keywords)
    (drop (S i) mapping) →
  classify_loop text mapping best best_score = label.
Proof.
  revert i best best_score.
  induction mapping as [|[l k] rest IH]; intros [|i] best best_score;
    simpl; try done.
  - intros [= -> ->] Hlt _ Hafter.
    rewrite (proj2 (Nat.ltb_lt _ _)) by done.
    by apply classify_loop_keep.
  - intros Hi Hlt [Hhead Hbefore]%Forall_cons Hafter. simpl in Hhead.
    destruct (best_score <? score text k); by eapply IH.
Qed.

(** X20. [_classify] returns the default when no keyword of any label
    occurs in the text; otherwise it returns the label with the highest
    keyword count, and among labels with the same count the one that comes
    first in the mapping. *)
Theorem classify_picks_the_first_best (text : string)
    (mapping : list (string * list string)) (default : string) :
  (Forall (λ entry, score text entry.2 = 0) mapping →
   _classify text mapping default = default)
  ∧ (∀ i label keywords,
       mapping !! i = Some (label, keywords) →
       0 < score text keywords →
       Forall (λ entry, score text entry.2 < score text keywords)
         (take i mapping) →
       Forall (λ entry, score text entry.2 ≤ score text keywords)
         (drop (S i) mapping) →
       _classify text mapping default = label).
Proof.
  unfold _classify. split.
  - intros Hnone. apply classify_loop_keep.
    eapply Forall_impl; [exact Hnone|]. simpl. lia.
  - intros i label keywords. apply classify_loop_pick.
Qed.

(** X21. The coherence signature sees the timestamp only through its
    five-minute bucket and the content only through its first 1024
    characters: moving the timestamp within its bucket, or appending to a
    content that already has that many characters, leaves the outcome
    (the signature, or the failure to encode the blob) as it is. *)
Theorem coherence_signature_is_bucketed `{Digest}
    (intent topic : codepoints) (timestamp_ns delta : Z)
    (content extra : codepoints) :
  (0 ≤ delta)%Z →
  (timestamp_ns `mod` 300000000000 + delta < 300000000000)%Z →
  1024 ≤ length content →
  coherence_signature intent topic (timestamp_ns + delta)
    (content ++ extra)
  = coherence_signature intent topic timestamp_ns content.
Proof.
  intros Hdelta Hbucket Hlen. unfold coherence_signature.
  change (5 * 60 * 1000000000)%Z with 300000000000%Z.
  rewrite take_app_le by done.
  replace ((timestamp_ns + delta) `div` 300000000000)%Z
    with (timestamp_ns `div` 300000000000)%Z; [done|].
  pose proof (Z.mod_pos_bound timestamp_ns 300000000000 eq_refl).
  apply (Z.div_unique _ _ _ (timestamp_ns `mod` 300000000000 + delta));
    [left; lia|].
  pose proof (Z.div_mod timestamp_ns 300000000000). lia.
Qed.

End bridge.

(** ** Capture events as dicts *)

Section event_dicts.
Import Capture Queries.

(** X22. [to_dict] always carries the nine base entries with the event's
    own values, and an optional entry ([error], the three layers, the
    signature) only when its value is truthy: an event without error has
    no [error] key, and one with an error text has it. *)
Theorem to_dict_omits_empty_entries (e : CaptureEvent) :
  ∃ d,
    to_dict e = JObj d
    ∧ Py.assoc "event_id" d = Some (JStr (event_id e))
    ∧ Py.assoc "direction" d = Some (JStr (direction e))
    ∧ Py.assoc "request_id" d = Some (request_id e)
    ∧ Py.assoc "parent_protocol_id" d
      = Some (opt_str (parent_protocol_id e))
    ∧ Py.assoc "turn" d = Some (JInt (Z.of_nat (turn e)))
    ∧ Py.assoc "content_length" d
      = Some (JInt (Z.of_nat (content_length e)))
    ∧ Py.assoc "error" d
      = match error e with
        | Some text => if bool_decide (text = "") then None
                       else Some (JStr text)
        | None => None
        end
    ∧ ∀ key v,
        key ∈ ["error"; "data_layer"; "light_layer"; "instinct_layer";
               "coherence_signature"] →
        Py.assoc key d = Some v → Py.truthy v = true.
Proof.
  destruct e as [eid ts dir stg raw frame meth rid pp trn err
                 [data light instinct signature] len].
  unfold to_dict. cbv zeta. simpl.
  destruct (Py.truthy (opt_str err)) eqn:Herr,
    (Py.truthy (opt_json data)) eqn:Hdata,
    (Py.truthy (opt_json light)) eqn:Hlight,
    (Py.truthy (opt_json instinct)) eqn:Hinstinct,
    (Py.truthy (opt_str signature)) eqn:Hsig;
    (eexists; split; [reflexivity|]);
    repeat (split; [reflexivity|]);
    (split;
     [destruct err as [text|]; simpl in *; try done;
      case_bool_decide; simpl in *; done
     |intros key v Hkey;
      repeat (apply elem_of_cons in Hkey as [->|Hkey]);
      [..|by apply elem_of_nil in Hkey];
      simpl; intros [= <-]; done]).
Qed.

End event_dicts.

(** ** The further properties on sample inputs *)

Lemma failed_registration_lists_uncallable_tools_witness :
  (Router.register_tools_module [JObj []] Demo.failing_tool Router.new).1
  = Raise (KeyError "name").
Proof.
  pose proof (failed_registration_lists_uncallable_tools
                (H := Demo.runtime) [JObj []] Demo.failing_tool Router.new
                (KeyError "name") eq_refl) as Hfailed.
  destruct (Router.register_tools_module _ _ _) as [r self'].
  exact (proj1 Hfailed).
Defined.

Lemma registered_tool_is_callable_witness :
  Router._handle_tools_call (H := Demo.runtime)
    (JObj [("name", JStr "ucw_timeline")])
    (Router.register_tools_module Samples.ucw_tools Demo.failing_tool
       Router.new).2
  = Ok (Protocol.tool_result_content
          [Protocol.text_content "Tool error: boom"] true).
Proof.
  refine (proj1 (registered_tool_is_callable (H := Demo.runtime)
                   Samples.ucw_tools Demo.failing_tool Router.new _
                   (JObj [("name", JStr "ucw_timeline")])
                   (JStr "ucw_timeline")
                   [("name", JStr "ucw_timeline")] eq_refl _ eq_refl eq_refl
                   eq_refl) eq_refl).
  right. left.
Defined.

Lemma handle_message_answers_at_most_once_witness :
  ∃ s', Server._handle_message (H := Demo.runtime)
          (Demo.request (JInt 1) "ping") Samples.started
        = (Ok (), s').
Proof.
  destruct (handle_message_answers_at_most_once (H := Demo.runtime)
              [("jsonrpc", JStr "2.0"); ("id", JInt 1);
               ("method", JStr "ping")]
              Samples.started [] eq_refl) as (s' & Hs' & _).
  exists s'. exact Hs'.
Defined.

Lemma unknown_method_is_answered_with_an_error_witness :
  ∃ s',
    Server._handle_message (H := Demo.runtime)
      (Demo.request (JInt 7) "prompts/list") Samples.started
    = (Ok (), s')
    ∧ stdout_of s'
      = Some [json_dumps (Runtime := Demo.runtime)
                (Protocol.make_error (JInt 7) (-32601)
                   "Unknown method: prompts/list" JNull)].
Proof.
  apply (unknown_method_is_answered_with_an_error (H := Demo.runtime)
           [("jsonrpc", JStr "2.0"); ("id", JInt 7);
            ("method", JStr "prompts/list")]
           Samples.started []).
  - reflexivity.
  - reflexivity.
  - repeat constructor.
Defined.

Lemma invalid_frame_is_answered_with_an_error_witness :
  ∃ s' message,
    Server._handle_message (H := Demo.runtime)
      (JObj [("jsonrpc", JStr "1.0"); ("id", JInt 7);
             ("method", JStr "ping")]) Samples.started
    = (Ok (), s')
    ∧ Server._router s' = Server._router Samples.started
    ∧ stdout_of s'
      = Some [json_dumps (Runtime := Demo.runtime)
                (Protocol.make_error (JInt 7) (-32600) message JNull)].
Proof.
  apply (invalid_frame_is_answered_with_an_error (H := Demo.runtime)
           [("jsonrpc", JStr "1.0"); ("id", JInt 7);
            ("method", JStr "ping")]
           Samples.started []); reflexivity.
Defined.

Lemma notifications_are_never_answered_witness :
  ∃ s',
    Server._handle_message (H := Demo.runtime)
      (JObj [("jsonrpc", JStr "2.0"); ("id", JInt 3);
             ("method", JStr "notifications/cancelled")]) Samples.started
    = (Ok (), s')
    ∧ Server._transport s' = Server._transport Samples.started
    ∧ Server._capture s' = Server._capture Samples.started
    ∧ Router._tool_handlers (Server._router s')
      = Router._tool_handlers (Server._router Samples.started).
Proof.
  apply (notifications_are_never_answered (H := Demo.runtime)
           [("jsonrpc", JStr "2.0"); ("id", JInt 3);
            ("method", JStr "notifications/cancelled")]
           "notifications/cancelled" Samples.started);
    [reflexivity|reflexivity|].
  right. right. left.
Defined.

Lemma every_result_is_answered_witness :
  ∃ s',
    Server._handle_message (H := Demo.runtime)
      (JObj [("jsonrpc", JStr "2.0"); ("method", JStr "ping")])
      Samples.started
    = (Ok (), s')
    ∧ stdout_of s'
      = Some [json_dumps (Runtime := Demo.runtime)
                (Protocol.make_response JNull (JObj []))].
Proof.
  apply (every_result_is_answered (H := Demo.runtime)
           [("jsonrpc", JStr "2.0"); ("method", JStr "ping")]
           Samples.started [] "notification" (JObj []) Router.new);
    reflexivity.
Defined.

Lemma run_ends_shut_down_with_output_captured_witness :
  ∃ r s',
    Server.run (H := Demo.runtime) (λ _, (Capture.no_layers, Ok ()))
      [Demo.line (Demo.dumps (Demo.request (JInt 1) "ping")
                  +:+ Demo.newline)]
      Server.new
    = Some (r, s')
    ∧ Server._running s' = false
    ∧ Transport.running (Server._transport s') = false
    ∧ Server._db_init_task s' ≠ Some Server.Pending
    ∧ output_is_captured s'.
Proof.
  apply (run_ends_shut_down_with_output_captured (H := Demo.runtime));
    reflexivity.
Defined.

Lemma read_message_consumes_one_read_witness :
  ∃ r e',
    Transport.read_message (H := Demo.runtime)
      (Server.on_capture (H := Demo.runtime)) 1
      (Transport.start [Samples.long_line; Demo.line "{}"] Transport.new)
      Capture.new
    = (Ok r,
       {| Transport.running := true;
          Transport._reader := Some [Demo.line "{}"];
          Transport._stdout := Some [] |},
       e')
    ∧ r = None
    ∧ e' = Capture.new.
Proof.
  destruct (read_message_consumes_one_read (H := Demo.runtime)
              (Server.on_capture (H := Demo.runtime)) 1
              [Samples.long_line; Demo.line "{}"]
              (Transport.start [Samples.long_line; Demo.line "{}"]
                 Transport.new)
              Capture.new eq_refl) as (r & e' & Hread & _ & _ & Hover).
  exists r, e'. split; [exact Hread|].
  apply (Hover Samples.long_line); [reflexivity|].
  vm_compute. reflexivity.
Defined.

Lemma non_object_frame_ends_the_read_loop_witness :
  ∃ s',
    Server.run_loop (H := Samples.array_runtime) 3
      (Server.set_running true
         (Server.set_transport
            (Transport.start [Demo.line "[1,2]"; Demo.line "{}"])
            Server.new))
    = Some (Ok (), s')
    ∧ pending s' = [Demo.line "{}"]
    ∧ events_of s' = []
    ∧ stdout_of s' = Some [].
Proof.
  apply (non_object_frame_ends_the_read_loop (H := Samples.array_runtime) 2
           (Demo.line "[1,2]") [Demo.line "{}"] (JArr [JInt 1; JInt 2]));
    try reflexivity; discriminate.
Defined.

Lemma tool_module_failures_stay_in_band_witness :
  ∃ payload,
    Router.tools_call_loop (H := Demo.runtime) (JStr "ucw_timeline")
      (JObj [])
      [([JStr "ucw_capture_stats"; JStr "ucw_timeline";
         JStr "detect_emergence"],
        Tools.ucw_handle_tool (H := Demo.runtime) Samples.stats_body
          Samples.failing_body Samples.failing_body)]
    = Ok payload
    ∧ payload
      = Protocol.tool_result_content
          [Protocol.text_content "Error in ucw_timeline: no database"] true.
Proof.
  apply (tool_module_failures_stay_in_band (H := Demo.runtime) "UCW"
           Samples.ucw_bodies (JStr "ucw_timeline") (JObj [])).
  reflexivity.
Defined.

Lemma classify_picks_the_first_best_witness :
  Bridge._classify "search the sqlite database schema over the mcp"
    Bridge._DOMAIN_KEYWORDS "general"
  = "database".
Proof.
  apply (proj2 (classify_picks_the_first_best
                  "search the sqlite database schema over the mcp"
                  Bridge._DOMAIN_KEYWORDS "general")
           1 "database"
           ["database"; "sql"; "schema"; "query"; "postgres"; "sqlite"]).
  - reflexivity.
  - vm_compute. lia.
  - repeat constructor.
  - repeat constructor.
Defined.

Lemma coherence_signature_is_bucketed_witness :
  Bridge.coherence_signature (H := Samples.plain_digest)
    (literal "search") (literal "ucw") (1700000000000000000 + 1000000000)
    (Samples.long_content ++ literal " and more")
  = Bridge.coherence_signature (H := Samples.plain_digest)
      (literal "search") (literal "ucw") 1700000000000000000
      Samples.long_content.
Proof.
  apply (coherence_signature_is_bucketed (H := Samples.plain_digest)).
  - lia.
  - reflexivity.
  - apply Nat.leb_le. vm_compute. reflexivity.
Defined.

Lemma oversize_line_ends_the_read_loop_witness :
  ∃ s',
    Server.run_loop (H := Demo.runtime) 1
      (Server.set_running true
         (Server.set_transport
            (Transport.start
               [Samples.long_line;
                Demo.line (Demo.dumps (Demo.request (JInt 1) "ping")
                           +:+ Demo.newline)])
            Server.new))
    = Some (Ok (), s')
    ∧ pending s'
      = [Demo.line (Demo.dumps (Demo.request (JInt 1) "ping")
                    +:+ Demo.newline)]
    ∧ events_of s' = []
    ∧ stdout_of s' = Some []
    ∧ Server._running s' = true.
Proof.
  apply (oversize_line_ends_the_read_loop (H := Demo.runtime) 0
           Samples.long_line).
  - reflexivity.
  - reflexivity.
  - vm_compute. reflexivity.
Defined.
